(** * Scoped filter models of [zenml.models.v2.base.scoped]

    A shallow embedding of the filter classes of
    [src/zenml/models/v2/base/scoped.py]:

    - [UserScopedFilter], [WorkspaceScopedFilter], [ShareableFilter],
      [ModelScopedFilter] and [ModelVersionScopedFilter], one module each,
      with the methods [set_scope_*] and [apply_filter];
    - the SQL expressions these methods build ([==], [.is_], [or_],
      [query.where]) as a small syntax with its three-valued evaluation
      over a row;
    - the filter object, the exceptions and the [Client] look-ups as a
      state-and-exception monad that also records every look-up made.

    What the module imports but does not define is taken as an interface:
    [uuid.UUID] ([UUIDLib]), [zenml.client.Client] ([Client]) and
    [zenml.models.v2.base.filter.BaseFilter] ([BaseFilterClass]).

    [OnTableClass] embeds [apply_filter] once more on a table class that
    may lack a column, where [getattr] raises [AttributeError] and
    [BaseFilter.apply_filter] is handed the whole object and may raise.

    The request and response models of the same file, with their
    analytics metadata, and the [ClearMLOrchestrator] of
    [src/zenml/integrations/clearml/orchestrators/clearml_orchestrator.py]
    follow, each with the interface of what it calls. *)

From Stdlib Require Import String Ascii List Bool NArith HexString Lia.
Import ListNotations.
Local Open Scope string_scope.
Set Warnings "-register-all".

(** ** Identifiers *)

(** A [uuid.UUID] object, by its 128-bit integer value ([UUID.int]). *)
Definition UUID : Type := N.

(** The two operations of [uuid.UUID] used by the setters: the constructor
    [UUID(s)] on a string, which raises [ValueError] on a badly formed
    string ([None] here), and [str(u)]. *)
Class UUIDLib : Type := {
  UUID_of_str : string -> option UUID;
  str_of_UUID : UUID -> string
}.

(** The argument type [Union[str, UUID]] of the setters. *)
Inductive NameOrId : Type :=
| Str (s : string)
| Uuid (u : UUID).

(** Python's [str(x)] on a [Union[str, UUID]]. *)
Definition str {uuid_lib : UUIDLib} (x : NameOrId) : string :=
  match x with
  | Str s => s
  | Uuid u => str_of_UUID u
  end.

(** Truth value of an [Optional[UUID]] attribute in [if self.attr:].
    [uuid.UUID] defines neither [__bool__] nor [__len__], so every UUID
    object is true and only [None] is false. *)
Definition truthy (o : option UUID) : bool :=
  match o with
  | Some _ => true
  | None => false
  end.

(** ** Rows and SQL expressions *)

(** A row of a scoped table, with the columns the filters name. *)
Record Resource : Type := {
  user_id : option UUID;
  workspace_id : option UUID;
  is_shared : bool;
  model_id : option UUID;
  model_version_id : option UUID
}.

(** The schema class passed as [table]. *)
Record Table : Type := { __tablename__ : string }.

(** A column attribute of a table. *)
Record Column : Type := { col_table : Table; col_key : string }.

(** [getattr(table, name)], for a table that declares the column. *)
Definition getattr (table : Table) (name : string) : Column :=
  {| col_table := table; col_key := name |}.

(** The right operand of [Column.is_]. *)
Inductive Singleton : Type := PyNone | PyTrue.

(** The expressions built by the filters. [eq_ c v] is [c == v]; with
    [v = None] SQLAlchemy renders it as [c IS NULL]. *)
Inductive ColumnElement : Type :=
| eq_ (c : Column) (v : option UUID)
| is_ (c : Column) (s : Singleton)
| or_ (clauses : list ColumnElement).

(** A [Select] statement: the table it reads and its WHERE criteria, which
    are joined by AND. *)
Record Select : Type := {
  _from : Table;
  _where_criteria : list ColumnElement
}.

(** [query.where(clause)]. *)
Definition where_ (query : Select) (clause : ColumnElement) : Select :=
  {| _from := _from query;
     _where_criteria := _where_criteria query ++ [clause] |}.

(** A value stored in a column. *)
Inductive Value : Type :=
| NULL
| VUuid (u : UUID)
| VBool (b : bool).

Definition column_value (r : Resource) (c : Column) : Value :=
  let opt := fun o : option UUID =>
    match o with Some u => VUuid u | None => NULL end in
  if col_key c =? "user_id" then opt (user_id r)
  else if col_key c =? "workspace_id" then opt (workspace_id r)
  else if col_key c =? "is_shared" then VBool (is_shared r)
  else if col_key c =? "model_id" then opt (model_id r)
  else if col_key c =? "model_version_id" then opt (model_version_id r)
  else NULL.

(** SQL truth values: [None] is UNKNOWN. *)
Definition or3 (a b : option bool) : option bool :=
  match a, b with
  | Some true, _ | _, Some true => Some true
  | Some false, Some false => Some false
  | _, _ => None
  end.

Definition eval_eq (x : Value) (v : option UUID) : option bool :=
  match v, x with
  | None, NULL => Some true
  | None, _ => Some false
  | Some _, NULL => None
  | Some u, VUuid u' => Some (N.eqb u' u)
  | Some _, VBool _ => Some false
  end.

Definition eval_is (x : Value) (s : Singleton) : option bool :=
  match s, x with
  | PyNone, NULL => Some true
  | PyNone, _ => Some false
  | PyTrue, VBool true => Some true
  | PyTrue, _ => Some false
  end.

Fixpoint eval (r : Resource) (e : ColumnElement) : option bool :=
  match e with
  | eq_ c v => eval_eq (column_value r c) v
  | is_ c s => eval_is (column_value r c) s
  | or_ clauses =>
      (fix any (l : list ColumnElement) : option bool :=
         match l with
         | [] => Some false
         | e' :: l' => or3 (eval r e') (any l')
         end) clauses
  end.

(** A criterion keeps a row when it evaluates to TRUE. *)
Definition holds (r : Resource) (e : ColumnElement) : bool :=
  match eval r e with
  | Some true => true
  | _ => false
  end.

(** The rows a statement returns: those that every criterion keeps. *)
Definition included (r : Resource) (query : Select) : bool :=
  forallb (holds r) (_where_criteria query).

(** ** Exceptions, look-ups and the filter object *)

(** How a call ends: it returns, or an exception propagates out of it. *)
Inductive Outcome (E A : Type) : Type :=
| Returned (a : A)
| Raised (e : E).
Arguments Returned {E A} a.
Arguments Raised {E A} e.

(** A look-up made on [Client()], with its keyword arguments. *)
Inductive ClientCall : Type :=
| get_model_call (model_name_or_id : NameOrId)
| get_model_version_call (model_name_or_id : option UUID)
    (model_version_name_or_number_or_id : NameOrId).

(** [zenml.client.Client], as far as the setters use it: each look-up
    returns the [.id] of the response or raises. *)
Class Client : Type := {
  ClientError : Type;
  get_model : NameOrId -> Outcome ClientError UUID;
  get_model_version : option UUID -> NameOrId -> Outcome ClientError UUID
}.

(** The part of the world a method can change: the object it is called on
    and the look-ups made so far, oldest first. *)
Record World (S : Type) : Type := {
  self : S;
  lookups : list ClientCall
}.
Arguments self {S} w.
Arguments lookups {S} w.

(** A method body on an object of type [S]. The object is kept when an
    exception is raised, as Python keeps it. *)
Definition M {client : Client} (S A : Type) : Type :=
  World S -> Outcome ClientError A * World S.

Section Monad.
Context {client : Client}.

Definition ret {S A : Type} (a : A) : M S A :=
  fun w => (Returned a, w).

Definition bind {S A B : Type} (m : M S A) (k : A -> M S B) : M S B :=
  fun w =>
    match m w with
    | (Returned a, w') => k a w'
    | (Raised e, w') => (Raised e, w')
    end.

(** Reading attributes of [self]. *)
Definition gets {S A : Type} (f : S -> A) : M S A :=
  fun w => (Returned (f (self w)), w).

(** Assigning to an attribute of [self]. *)
Definition modify {S : Type} (f : S -> S) : M S unit :=
  fun w => (Returned tt, {| self := f (self w); lookups := lookups w |}).

(** A look-up on the client: it is recorded, then returns or raises. *)
Definition lookup {S : Type} (c : ClientCall) (o : Outcome ClientError UUID)
  : M S UUID :=
  fun w => (o, {| self := self w; lookups := lookups w ++ [c] |}).

(** [super().method(...)]: the parent class's method runs on the parent's
    part of the same object. *)
Definition super_call {S T A : Type} (up : S -> T) (down : T -> S -> S)
    (m : M T A) : M S A :=
  fun w =>
    let (o, w') := m {| self := up (self w); lookups := lookups w |} in
    (o, {| self := down (self w') (self w); lookups := lookups w' |}).

End Monad.

Notation "x <- m ;; k" := (bind m (fun x => k))
  (at level 61, m at next level, right associativity).

(** ** [BaseFilter] *)

(** [zenml.models.v2.base.filter.BaseFilter]: its own fields, its two
    class-level lists and its [apply_filter], which adds the generic column
    filters to the query. [apply_filter] is taken as a function of the
    [BaseFilter] part of the object, the query and the table: it assigns
    no attribute, raises nothing and makes no look-up. *)
Class BaseFilterClass : Type := {
  BaseFilter : Type;
  BaseFilter_FILTER_EXCLUDE_FIELDS : list string;
  BaseFilter_CLI_EXCLUDE_FIELDS : list string;
  BaseFilter_apply_filter : BaseFilter -> Select -> Table -> Select
}.

(** ** [UserScopedFilter(BaseFilter)] *)

Module UserScopedFilter.
Section Class.
Context {base_filter : BaseFilterClass} {client : Client}.

Record t : Type := {
  base : BaseFilter;
  scope_user : option UUID
}.

Definition FILTER_EXCLUDE_FIELDS : list string :=
  BaseFilter_FILTER_EXCLUDE_FIELDS ++ ["scope_user"].

Definition CLI_EXCLUDE_FIELDS : list string :=
  BaseFilter_CLI_EXCLUDE_FIELDS ++ ["scope_user"].

Definition set_scope_user (user_id : UUID) : M t unit :=
  modify (fun self => {| base := base self; scope_user := Some user_id |}).

Definition apply_filter (query : Select) (table : Table) : M t Select :=
  query <- gets (fun self => BaseFilter_apply_filter (base self) query table) ;;
  scope_user <- gets scope_user ;;
  if truthy scope_user then
    let scope_filter := or_ [eq_ (getattr table "user_id") scope_user] in
    ret (where_ query scope_filter)
  else ret query.

End Class.
End UserScopedFilter.

(** ** [WorkspaceScopedFilter(BaseFilter)] *)

Module WorkspaceScopedFilter.
Section Class.
Context {base_filter : BaseFilterClass} {client : Client}.

Record t : Type := {
  base : BaseFilter;
  scope_workspace : option UUID
}.

Definition FILTER_EXCLUDE_FIELDS : list string :=
  BaseFilter_FILTER_EXCLUDE_FIELDS ++ ["scope_workspace"].

Definition CLI_EXCLUDE_FIELDS : list string :=
  BaseFilter_CLI_EXCLUDE_FIELDS ++ ["scope_workspace"].

Definition set_scope_workspace (workspace_id : UUID) : M t unit :=
  modify (fun self =>
    {| base := base self; scope_workspace := Some workspace_id |}).

Definition apply_filter (query : Select) (table : Table) : M t Select :=
  query <- gets (fun self => BaseFilter_apply_filter (base self) query table) ;;
  scope_workspace <- gets scope_workspace ;;
  if truthy scope_workspace then
    let scope_filter :=
      or_ [eq_ (getattr table "workspace_id") scope_workspace;
           is_ (getattr table "workspace_id") PyNone] in
    ret (where_ query scope_filter)
  else ret query.

End Class.
End WorkspaceScopedFilter.

(** ** [ShareableFilter(WorkspaceScopedFilter)] *)

Module ShareableFilter.
Section Class.
Context {base_filter : BaseFilterClass} {client : Client}.

Record t : Type := {
  super : WorkspaceScopedFilter.t;
  scope_user : option UUID
}.

Definition set_super (p : WorkspaceScopedFilter.t) (self : t) : t :=
  {| super := p; scope_user := scope_user self |}.

Definition FILTER_EXCLUDE_FIELDS : list string :=
  WorkspaceScopedFilter.FILTER_EXCLUDE_FIELDS ++ ["scope_user"].

Definition CLI_EXCLUDE_FIELDS : list string :=
  WorkspaceScopedFilter.CLI_EXCLUDE_FIELDS ++ ["scope_user"].

Definition set_scope_user (user_id : UUID) : M t unit :=
  modify (fun self => {| super := super self; scope_user := Some user_id |}).

(** Inherited from [WorkspaceScopedFilter]. *)
Definition set_scope_workspace (workspace_id : UUID) : M t unit :=
  super_call super set_super
    (WorkspaceScopedFilter.set_scope_workspace workspace_id).

Definition apply_filter (query : Select) (table : Table) : M t Select :=
  query <- super_call super set_super
             (WorkspaceScopedFilter.apply_filter query table) ;;
  scope_user <- gets scope_user ;;
  if truthy scope_user then
    let scope_filter :=
      or_ [eq_ (getattr table "user_id") scope_user;
           is_ (getattr table "is_shared") PyTrue] in
    ret (where_ query scope_filter)
  else ret query.

End Class.
End ShareableFilter.

(** ** [ModelScopedFilter(WorkspaceScopedFilter)] *)

Module ModelScopedFilter.
Section Class.
Context {uuid_lib : UUIDLib} {base_filter : BaseFilterClass} {client : Client}.

(** [_model_id] is a private attribute with default [None]. *)
Record t : Type := {
  super : WorkspaceScopedFilter.t;
  _model_id : option UUID
}.

Definition set_super (p : WorkspaceScopedFilter.t) (self : t) : t :=
  {| super := p; _model_id := _model_id self |}.

(** Inherited from [WorkspaceScopedFilter]. *)
Definition FILTER_EXCLUDE_FIELDS : list string :=
  WorkspaceScopedFilter.FILTER_EXCLUDE_FIELDS.

Definition CLI_EXCLUDE_FIELDS : list string :=
  WorkspaceScopedFilter.CLI_EXCLUDE_FIELDS.

Definition set_scope_workspace (workspace_id : UUID) : M t unit :=
  super_call super set_super
    (WorkspaceScopedFilter.set_scope_workspace workspace_id).

Definition set_scope_model (model_name_or_id : NameOrId) : M t unit :=
  model_id <-
    match UUID_of_str (str model_name_or_id) with
    | Some model_id => ret model_id
    | None (* except ValueError *) =>
        lookup (get_model_call model_name_or_id) (get_model model_name_or_id)
    end ;;
  modify (fun self => {| super := super self; _model_id := Some model_id |}).

Definition apply_filter (query : Select) (table : Table) : M t Select :=
  query <- super_call super set_super
             (WorkspaceScopedFilter.apply_filter query table) ;;
  _model_id <- gets _model_id ;;
  if truthy _model_id then
    ret (where_ query (eq_ (getattr table "model_id") _model_id))
  else ret query.

End Class.
End ModelScopedFilter.

(** ** [ModelVersionScopedFilter(ModelScopedFilter)] *)

Module ModelVersionScopedFilter.
Section Class.
Context {uuid_lib : UUIDLib} {base_filter : BaseFilterClass} {client : Client}.

(** [_model_version_id] is a private attribute with default [None]. *)
Record t : Type := {
  super : ModelScopedFilter.t;
  _model_version_id : option UUID
}.

Definition set_super (p : ModelScopedFilter.t) (self : t) : t :=
  {| super := p; _model_version_id := _model_version_id self |}.

(** Inherited through [ModelScopedFilter]. *)
Definition FILTER_EXCLUDE_FIELDS : list string :=
  ModelScopedFilter.FILTER_EXCLUDE_FIELDS.

Definition CLI_EXCLUDE_FIELDS : list string :=
  ModelScopedFilter.CLI_EXCLUDE_FIELDS.

Definition set_scope_workspace (workspace_id : UUID) : M t unit :=
  super_call super set_super
    (ModelScopedFilter.set_scope_workspace workspace_id).

(** Inherited from [ModelScopedFilter]. *)
Definition set_scope_model (model_name_or_id : NameOrId) : M t unit :=
  super_call super set_super
    (ModelScopedFilter.set_scope_model model_name_or_id).

Definition set_scope_model_version (model_version_name_or_id : NameOrId)
  : M t unit :=
  model_version_id <-
    match UUID_of_str (str model_version_name_or_id) with
    | Some model_version_id => ret model_version_id
    | None (* except ValueError *) =>
        _model_id <-
          gets (fun self => ModelScopedFilter._model_id (super self)) ;;
        lookup (get_model_version_call _model_id model_version_name_or_id)
               (get_model_version _model_id model_version_name_or_id)
    end ;;
  modify (fun self =>
    {| super := super self; _model_version_id := Some model_version_id |}).

Definition apply_filter (query : Select) (table : Table) : M t Select :=
  query <- super_call super set_super
             (ModelScopedFilter.apply_filter query table) ;;
  _model_version_id <- gets _model_version_id ;;
  ret (where_ query
         (eq_ (getattr table "model_version_id") _model_version_id)).

End Class.
End ModelVersionScopedFilter.

(** ** Any scoped filter *)

Section AnyFilter.
Context {uuid_lib : UUIDLib} {base_filter : BaseFilterClass} {client : Client}.

(** A filter object of one of the five classes. *)
Inductive AnyFilter : Type :=
| OfUserScoped (f : UserScopedFilter.t)
| OfWorkspaceScoped (f : WorkspaceScopedFilter.t)
| OfShareable (f : ShareableFilter.t)
| OfModelScoped (f : ModelScopedFilter.t)
| OfModelVersionScoped (f : ModelVersionScopedFilter.t).

(** A method of class [S] called on an object known as an [AnyFilter]. *)
Definition on_class {S A : Type} (inj : S -> AnyFilter) (m : M S A) (f : S)
    (calls : list ClientCall) : Outcome ClientError A * World AnyFilter :=
  let (o, w') := m {| self := f; lookups := calls |} in
  (o, {| self := inj (self w'); lookups := lookups w' |}).

(** [filter.apply_filter(query, table)], dispatched on the class of the
    object. *)
Definition apply_filter (query : Select) (table : Table) : M AnyFilter Select :=
  fun w =>
    match self w with
    | OfUserScoped f =>
        on_class OfUserScoped (UserScopedFilter.apply_filter query table)
          f (lookups w)
    | OfWorkspaceScoped f =>
        on_class OfWorkspaceScoped
          (WorkspaceScopedFilter.apply_filter query table) f (lookups w)
    | OfShareable f =>
        on_class OfShareable (ShareableFilter.apply_filter query table)
          f (lookups w)
    | OfModelScoped f =>
        on_class OfModelScoped (ModelScopedFilter.apply_filter query table)
          f (lookups w)
    | OfModelVersionScoped f =>
        on_class OfModelVersionScoped
          (ModelVersionScopedFilter.apply_filter query table) f (lookups w)
    end.

(** The [BaseFilter] part of a filter object. *)
Definition base_of (f : AnyFilter) : BaseFilter :=
  match f with
  | OfUserScoped f => UserScopedFilter.base f
  | OfWorkspaceScoped f => WorkspaceScopedFilter.base f
  | OfShareable f => WorkspaceScopedFilter.base (ShareableFilter.super f)
  | OfModelScoped f => WorkspaceScopedFilter.base (ModelScopedFilter.super f)
  | OfModelVersionScoped f =>
      WorkspaceScopedFilter.base
        (ModelScopedFilter.super (ModelVersionScopedFilter.super f))
  end.

(** [self.scope_workspace], for the classes that have the field. *)
Definition scope_workspace_of (f : AnyFilter) : option UUID :=
  match f with
  | OfUserScoped _ => None
  | OfWorkspaceScoped f => WorkspaceScopedFilter.scope_workspace f
  | OfShareable f =>
      WorkspaceScopedFilter.scope_workspace (ShareableFilter.super f)
  | OfModelScoped f =>
      WorkspaceScopedFilter.scope_workspace (ModelScopedFilter.super f)
  | OfModelVersionScoped f =>
      WorkspaceScopedFilter.scope_workspace
        (ModelScopedFilter.super (ModelVersionScopedFilter.super f))
  end.

(** No scope constraint is set on the object: every scope attribute its
    class has is still [None]. *)
Definition unscoped (f : AnyFilter) : bool :=
  match f with
  | OfUserScoped f => negb (truthy (UserScopedFilter.scope_user f))
  | OfWorkspaceScoped f =>
      negb (truthy (WorkspaceScopedFilter.scope_workspace f))
  | OfShareable f =>
      negb (truthy (WorkspaceScopedFilter.scope_workspace
                      (ShareableFilter.super f)))
      && negb (truthy (ShareableFilter.scope_user f))
  | OfModelScoped f =>
      negb (truthy (WorkspaceScopedFilter.scope_workspace
                      (ModelScopedFilter.super f)))
      && negb (truthy (ModelScopedFilter._model_id f))
  | OfModelVersionScoped f =>
      let m := ModelVersionScopedFilter.super f in
      negb (truthy (WorkspaceScopedFilter.scope_workspace
                      (ModelScopedFilter.super m)))
      && negb (truthy (ModelScopedFilter._model_id m))
      && negb (truthy (ModelVersionScopedFilter._model_version_id f))
  end.

(** The query a method call returns on object [f], if it returns. *)
Definition query_of {S : Type} (m : M S Select) (f : S) : option Select :=
  match m {| self := f; lookups := [] |} with
  | (Returned q, _) => Some q
  | (Raised _, _) => None
  end.

End AnyFilter.

(** ** Dictionaries *)

(** A Python [dict] with string keys, in insertion order. *)
Definition Dict (V : Type) : Type := list (string * V).

(** [d.get(k)]: [None] where [d[k]] raises [KeyError]. *)
Fixpoint getitem {V : Type} (d : Dict V) (k : string) : option V :=
  match d with
  | [] => None
  | (k', v') :: d' => if k' =? k then Some v' else getitem d' k
  end.

(** [d[k] = v]: the value of an existing key is replaced in place, a new
    key is added at the end. *)
Fixpoint setitem {V : Type} (d : Dict V) (k : string) (v : V) : Dict V :=
  match d with
  | [] => [(k, v)]
  | (k', v') :: d' =>
      if k' =? k then (k', v) :: d' else (k', v') :: setitem d' k v
  end.

(** [k in d]. *)
Definition contains {V : Type} (d : Dict V) (k : string) : bool :=
  match getitem d k with
  | Some _ => true
  | None => false
  end.

(** A value of type [Any] in the analytics metadata and in keyword
    arguments. *)
Inductive Any : Type :=
| AnyUuid (u : UUID)
| AnyBool (b : bool)
| AnyStr (s : string).

(** Sequencing of calls that return or raise. *)
Definition and_then {E A B : Type} (o : Outcome E A) (k : A -> Outcome E B)
  : Outcome E B :=
  match o with
  | Returned a => k a
  | Raised e => Raised e
  end.

(** ** Request models *)

(** [zenml.models.v2.base.base.BaseRequest]: its own fields and its
    [get_analytics_metadata], which returns a new dictionary. *)
Class BaseRequestClass : Type := {
  BaseRequest : Type;
  BaseRequest_get_analytics_metadata : BaseRequest -> Dict Any
}.

Module UserScopedRequest.
Section Class.
Context {base_request : BaseRequestClass}.

Record t : Type := {
  base : BaseRequest;
  user : UUID
}.

Definition get_analytics_metadata (self : t) : Dict Any :=
  let metadata := BaseRequest_get_analytics_metadata (base self) in
  let metadata := setitem metadata "user_id" (AnyUuid (user self)) in
  metadata.

End Class.
End UserScopedRequest.

Module WorkspaceScopedRequest.
Section Class.
Context {base_request : BaseRequestClass}.

Record t : Type := {
  super : UserScopedRequest.t;
  workspace : UUID
}.

Definition get_analytics_metadata (self : t) : Dict Any :=
  let metadata := UserScopedRequest.get_analytics_metadata (super self) in
  let metadata := setitem metadata "workspace_id" (AnyUuid (workspace self)) in
  metadata.

End Class.
End WorkspaceScopedRequest.

Module ShareableRequest.
Section Class.
Context {base_request : BaseRequestClass}.

(** [is_shared] has the default [False]. *)
Record t : Type := {
  super : WorkspaceScopedRequest.t;
  is_shared : bool
}.

Definition get_analytics_metadata (self : t) : Dict Any :=
  let metadata := WorkspaceScopedRequest.get_analytics_metadata (super self) in
  let metadata := setitem metadata "is_shared" (AnyBool (is_shared self)) in
  metadata.

End Class.
End ShareableRequest.

(** ** Response models *)

(** [UserResponse], by the one attribute the scoped models read. *)
Module UserResponse.
Record t : Type := { id : UUID }.
End UserResponse.

(** [UserScopedResponseBody]: the user is [None] once it is deleted. *)
Module UserScopedResponseBody.
Record t : Type := { user : option UserResponse.t }.
End UserScopedResponseBody.

(** [ShareableResponseBody(WorkspaceScopedResponseBody)];
    [WorkspaceScopedResponseBody] adds no field to the user-scoped body. *)
Module ShareableResponseBody.
Record t : Type := {
  super : UserScopedResponseBody.t;
  is_shared : bool
}.
End ShareableResponseBody.

(** [zenml.models.v2.base.base.BaseResponse[Body, Metadata]]: the object,
    its [get_body], which returns the body or raises, and its
    [get_analytics_metadata], which returns a new dictionary. *)
Class BaseResponseClass (Body : Type) : Type := {
  BaseResponse : Type;
  ResponseError : Type;
  get_body : BaseResponse -> Outcome ResponseError Body;
  BaseResponse_get_analytics_metadata : BaseResponse -> Dict Any
}.

Module UserScopedResponse.
Section Class.
(** [UserBody] is bound by [UserScopedResponseBody]: [as_user_body] reads
    a body as one. *)
Context {UserBody : Type} (as_user_body : UserBody -> UserScopedResponseBody.t)
  {base_response : BaseResponseClass UserBody}.

(** The [user] property. *)
Definition user (self : BaseResponse)
  : Outcome ResponseError (option UserResponse.t) :=
  and_then (get_body self) (fun body =>
  Returned (UserScopedResponseBody.user (as_user_body body))).

(** [self.user] is read for the test and again for [.id]; [get_body] is a
    function of the object, so the two reads agree. *)
Definition get_analytics_metadata (self : BaseResponse)
  : Outcome ResponseError (Dict Any) :=
  let metadata := BaseResponse_get_analytics_metadata self in
  and_then (user self) (fun self_user =>
  match self_user with
  | Some u =>
      Returned (setitem metadata "user_id" (AnyUuid (UserResponse.id u)))
  | None => Returned metadata
  end).

End Class.
End UserScopedResponse.

(** [WorkspaceScopedResponse] adds the [workspace] property, read from the
    response metadata, and inherits [get_analytics_metadata]. *)

Module ShareableResponse.
Section Class.
Context {base_response : BaseResponseClass ShareableResponseBody.t}.

(** The [is_shared] property. *)
Definition is_shared (self : BaseResponse) : Outcome ResponseError bool :=
  and_then (get_body self) (fun body =>
  Returned (ShareableResponseBody.is_shared body)).

Definition get_analytics_metadata (self : BaseResponse)
  : Outcome ResponseError (Dict Any) :=
  and_then
    (UserScopedResponse.get_analytics_metadata ShareableResponseBody.super self)
    (fun metadata =>
  and_then (is_shared self) (fun self_is_shared =>
  Returned (setitem metadata "is_shared" (AnyBool self_is_shared)))).

End Class.
End ShareableResponse.

(** ** The ClearML orchestrator

    [ClearMLOrchestrator] of
    [src/zenml/integrations/clearml/orchestrators/clearml_orchestrator.py]
    runs the steps of a deployment one after the other in Docker
    containers. What it calls but does not define is the interface
    [Platform]; what it does to the outside (log records, containers, the
    final look-up of the run) is recorded as a list of events. *)

Module ClearMLOrchestrator.

Definition ENV_ZENML_DOCKER_ORCHESTRATOR_RUN_ID : string :=
  "ZENML_DOCKER_ORCHESTRATOR_RUN_ID".

(** The types of the collaborators. *)
Class PlatformTypes : Type := {
  Step : Type;
  Schedule : Type;
  Stack : Type;
  PlatformError : Type
}.

Section Orchestrator.
Context {uuid_lib : UUIDLib} {types : PlatformTypes}.

(** [PipelineDeploymentResponseModel], as far as the orchestrator reads
    it. [step_configurations] is iterated in insertion order. *)
Record Deployment : Type := {
  id : UUID;
  schedule : option Schedule;
  step_configurations : Dict Step
}.

(** The keyword arguments of [docker_client.containers.run]; [extra] holds
    those that come from [**settings.run_args]. *)
Record RunKwargs : Type := {
  image : string;
  entrypoint : list string;
  command : list string;
  user : option nat;
  volumes : Dict (Dict string);
  environment : Dict string;
  stream : bool;
  extra_hosts : Dict string;
  extra : Dict Any
}.

(** The names of the keyword arguments the call passes itself. *)
Definition explicit_keywords : list string :=
  ["image"; "entrypoint"; "command"; "user"; "volumes"; "environment";
   "stream"; "extra_hosts"].

Inductive Exception : Type :=
| RuntimeError (msg : string)
| TypeError
| Propagated (e : PlatformError).

(** What the orchestrator calls. A collaborator typed [Outcome] returns or
    raises; the others are taken to return. Each clock reading and the
    formatting of their difference are floating point and are taken as the
    text [run_duration_text]. *)
Class Platform : Type := {
  DockerClient_from_env : Outcome PlatformError unit;
  get_entrypoint_command : list string;
  check_local_paths : Stack -> Outcome PlatformError unit;
  local_stores_path : string;
  ENV_ZENML_LOCAL_STORES_PATH : string;
  uuid4 : UUID;
  step_config_name : Step -> string;
  requires_resources_in_orchestration_environment : Step -> bool;
  get_entrypoint_arguments : string -> UUID -> list string;
  run_args : Step -> Dict Any;
  get_image : Deployment -> string -> Outcome PlatformError string;
  sys_platform : string;
  os_getuid : nat;
  containers_run : RunKwargs -> Outcome PlatformError (list string);
  strip_decode : string -> string;
  get_run_id_for_orchestrator_run_id : string -> UUID;
  get_run_name : UUID -> Outcome PlatformError string;
  run_duration_text : string
}.

(** What the orchestrator does to the outside. *)
Inductive Event : Type :=
| logger_warning (msg : string)
| logger_info (msg : string)
| container_started (kwargs : RunKwargs)
| run_fetched (run_id : UUID).

Context {platform : Platform}.

(** [get_orchestrator_run_id], on the mapping [os.environ]. *)
Definition get_orchestrator_run_id (environ : Dict string)
  : Outcome Exception string :=
  match getitem environ ENV_ZENML_DOCKER_ORCHESTRATOR_RUN_ID with
  | Some run_id => Returned run_id
  | None (* except KeyError *) =>
      Raised (RuntimeError
        ("Unable to read run id from environment variable "
         ++ ENV_ZENML_DOCKER_ORCHESTRATOR_RUN_ID ++ "."))
  end.

(** A body that records events, oldest first, and returns or raises. *)
Definition Run (A : Type) : Type :=
  list Event -> Outcome Exception A * list Event.

Definition pure {A : Type} (a : A) : Run A :=
  fun events => (Returned a, events).

Definition seq {A B : Type} (m : Run A) (k : A -> Run B) : Run B :=
  fun events =>
    match m events with
    | (Returned a, events') => k a events'
    | (Raised e, events') => (Raised e, events')
    end.

Definition emit (ev : Event) : Run unit :=
  fun events => (Returned tt, (events ++ [ev])%list).

(** A call to a collaborator: its exception propagates. *)
Definition call {A : Type} (o : Outcome PlatformError A) : Run A :=
  fun events =>
    match o with
    | Returned a => (Returned a, events)
    | Raised e => (Raised (Propagated e), events)
    end.

Definition raise_ {A : Type} (e : Exception) : Run A :=
  fun events => (Raised e, events).

Definition when (b : bool) (m : Run unit) : Run unit :=
  if b then m else pure tt.

(** [for x in xs: body(x)]. *)
Fixpoint for_each {A : Type} (xs : list A) (body : A -> Run unit) : Run unit :=
  match xs with
  | [] => pure tt
  | x :: xs' => seq (body x) (fun _ => for_each xs' body)
  end.

(** [docker_client.containers.run(..., **settings.run_args)]: a keyword
    given twice is a [TypeError] of the call itself, raised before the
    callee runs. *)
Definition docker_client_containers_run (kwargs : RunKwargs)
  : Run (list string) :=
  if existsb (contains (extra kwargs)) explicit_keywords then raise_ TypeError
  else seq (emit (container_started kwargs)) (fun _ =>
       call (containers_run kwargs)).

(** The body of the loop over the steps. *)
Definition run_step (deployment : Deployment) (entrypoint_ : list string)
    (volumes_ : Dict (Dict string)) (environment_ : Dict string)
    (item : string * Step) : Run unit :=
  let (step_name, step) := item in
  seq (when (requires_resources_in_orchestration_environment step)
         (emit (logger_warning
            ("Specifying step resources is not supported for the local "
             ++ "Docker orchestrator, ignoring resource configuration for "
             ++ "step " ++ step_config_name step ++ ".")))) (fun _ =>
  let arguments := get_entrypoint_arguments step_name (id deployment) in
  let settings_run_args := run_args step in
  seq (call (get_image deployment step_name)) (fun image_ =>
  let user_ := if sys_platform =? "win32" then None else Some os_getuid in
  seq (emit (logger_info ("Running step `" ++ step_name ++ "` in Docker:")))
    (fun _ =>
  seq (docker_client_containers_run
         {| image := image_;
            entrypoint := entrypoint_;
            command := arguments;
            user := user_;
            volumes := volumes_;
            environment := environment_;
            stream := true;
            extra_hosts := [("host.docker.internal", "host-gateway")];
            extra := settings_run_args |}) (fun logs =>
  for_each logs (fun line => emit (logger_info (strip_decode line))))))).

Definition prepare_or_run_pipeline (deployment : Deployment) (stack : Stack)
  : Run unit :=
  seq (when (match schedule deployment with Some _ => true | None => false end)
         (emit (logger_warning
            ("Local Docker Orchestrator currently does not support the"
             ++ "use of schedules. The `schedule` will be ignored "
             ++ "and the pipeline will be run immediately.")))) (fun _ =>
  seq (call DockerClient_from_env) (fun docker_client =>
  let entrypoint_ := get_entrypoint_command in
  seq (call (check_local_paths stack)) (fun _ =>
  let volumes_ :=
    setitem [] local_stores_path
      (setitem (setitem [] "bind" local_stores_path) "mode" "rw") in
  let orchestrator_run_id := str (Uuid uuid4) in
  let environment_ :=
    setitem
      (setitem [] ENV_ZENML_DOCKER_ORCHESTRATOR_RUN_ID orchestrator_run_id)
      ENV_ZENML_LOCAL_STORES_PATH local_stores_path in
  seq (for_each (step_configurations deployment)
         (run_step deployment entrypoint_ volumes_ environment_)) (fun _ =>
  let run_id := get_run_id_for_orchestrator_run_id orchestrator_run_id in
  seq (emit (run_fetched run_id)) (fun _ =>
  seq (call (get_run_name run_id)) (fun run_model_name =>
  emit (logger_info
          ("Pipeline run `" ++ run_model_name ++ "` has finished in "
           ++ run_duration_text ++ ".")))))))).

(** The containers started, in the order of their start. *)
Fixpoint containers (events : list Event) : list RunKwargs :=
  match events with
  | [] => []
  | container_started kwargs :: events' => kwargs :: containers events'
  | _ :: events' => containers events'
  end.

(** Container [kwargs] is the one the loop starts for [item]: the command
    and the image are those of the step, [run_args] names none of the
    explicit keywords, and the rest is what the pipeline fixed before the
    loop. *)
Definition runs_step (deployment : Deployment) (entrypoint_ : list string)
    (volumes_ : Dict (Dict string)) (environment_ : Dict string)
    (kwargs : RunKwargs) (item : string * Step) : Prop :=
  command kwargs = get_entrypoint_arguments (fst item) (id deployment) /\
  get_image deployment (fst item) = Returned (image kwargs) /\
  extra kwargs = run_args (snd item) /\
  existsb (contains (run_args (snd item))) explicit_keywords = false /\
  entrypoint kwargs = entrypoint_ /\
  volumes kwargs = volumes_ /\
  environment kwargs = environment_ /\
  stream kwargs = true /\
  user kwargs = (if sys_platform =? "win32" then None else Some os_getuid) /\
  extra_hosts kwargs = [("host.docker.internal", "host-gateway")].

(** The call that started container [kwargs] returned its log. *)
Definition completed (kwargs : RunKwargs) : Prop :=
  exists logs : list string, containers_run kwargs = Returned logs.

(** The run of the pipeline was looked up. *)
Fixpoint fetched (events : list Event) : list UUID :=
  match events with
  | [] => []
  | run_fetched run_id :: events' => run_id :: fetched events'
  | _ :: events' => fetched events'
  end.

End Orchestrator.
End ClearMLOrchestrator.

(** ** The filters on a table class

    [apply_filter] once more, with what the embedding above presupposes
    made explicit. The table is a class that defines some attributes, and
    [getattr] raises [AttributeError] on any other name. The call to
    [BaseFilter.apply_filter] is made on the object itself: it is handed
    [FILTER_EXCLUDE_FIELDS] of the object's class and the scope fields of
    the object by name, next to the [BaseFilter] part, and it may raise. *)

Module OnTableClass.

(** A schema class: the table it maps and the attributes it defines. *)
Record TableClass : Type := {
  table : Table;
  attributes : list string
}.

(** [BaseFilter.apply_filter] called on a filter object of any class. *)
Class BaseFilterOnClass {base_filter : BaseFilterClass} : Type := {
  BaseFilterError : Type;
  BaseFilter_apply_filter_on :
    list string -> Dict (option UUID) -> BaseFilter -> Select -> TableClass ->
    Outcome BaseFilterError Select
}.

Section Methods.
Context {uuid_lib : UUIDLib} {base_filter : BaseFilterClass} {client : Client}
  {raising : BaseFilterOnClass}.

Inductive Exception : Type :=
| AttributeError (name : string)
| BaseFilterRaised (e : BaseFilterError).

(** [self.scope_user], for the classes that have the field. *)
Definition scope_user_of (self : AnyFilter) : option UUID :=
  match self with
  | OfUserScoped f => UserScopedFilter.scope_user f
  | OfShareable f => ShareableFilter.scope_user f
  | _ => None
  end.

(** [self._model_id], for the classes that have the attribute. *)
Definition _model_id_of (self : AnyFilter) : option UUID :=
  match self with
  | OfModelScoped f => ModelScopedFilter._model_id f
  | OfModelVersionScoped f =>
      ModelScopedFilter._model_id (ModelVersionScopedFilter.super f)
  | _ => None
  end.

(** [self._model_version_id]. *)
Definition _model_version_id_of (self : AnyFilter) : option UUID :=
  match self with
  | OfModelVersionScoped f => ModelVersionScopedFilter._model_version_id f
  | _ => None
  end.

(** The scope fields the scoped classes declare on the object, by name,
    inherited fields first. The private attributes [_model_id] and
    [_model_version_id] are not fields. *)
Definition fields (self : AnyFilter) : Dict (option UUID) :=
  match self with
  | OfUserScoped _ => [("scope_user", scope_user_of self)]
  | OfShareable _ =>
      [("scope_workspace", scope_workspace_of self);
       ("scope_user", scope_user_of self)]
  | _ => [("scope_workspace", scope_workspace_of self)]
  end.

(** The columns [apply_filter] reads on an object, in the order it reads
    them: those of the scopes that are set, and [model_version_id] for a
    [ModelVersionScopedFilter]. *)
Definition columns_read (self : AnyFilter) : list string :=
  ((if truthy (scope_workspace_of self) then ["workspace_id"] else [])
   ++ (if truthy (_model_id_of self) then ["model_id"] else [])
   ++ match self with
      | OfUserScoped _ =>
          if truthy (scope_user_of self) then ["user_id"] else []
      | OfShareable _ =>
          if truthy (scope_user_of self) then ["user_id"; "is_shared"] else []
      | OfModelVersionScoped _ => ["model_version_id"]
      | _ => []
      end)%list.

(** The criteria the scopes of an object add to the query, in the order
    they are added. *)
Definition scope_criteria (t : Table) (self : AnyFilter)
  : list ColumnElement :=
  ((match scope_workspace_of self with
    | Some w => [or_ [eq_ (getattr t "workspace_id") (Some w);
                      is_ (getattr t "workspace_id") PyNone]]
    | None => []
    end)
   ++ (match _model_id_of self with
       | Some m => [eq_ (getattr t "model_id") (Some m)]
       | None => []
       end)
   ++ match self with
      | OfUserScoped _ =>
          match scope_user_of self with
          | Some u => [or_ [eq_ (getattr t "user_id") (Some u)]]
          | None => []
          end
      | OfShareable _ =>
          match scope_user_of self with
          | Some u => [or_ [eq_ (getattr t "user_id") (Some u);
                            is_ (getattr t "is_shared") PyTrue]]
          | None => []
          end
      | OfModelVersionScoped _ =>
          [eq_ (getattr t "model_version_id")
               (_model_version_id_of self)]
      | _ => []
      end)%list.

Definition defines (cls : TableClass) (name : string) : bool :=
  existsb (String.eqb name) (attributes cls).

(** [getattr(table, name)]. *)
Definition getattr (cls : TableClass) (name : string)
  : Outcome Exception Column :=
  if defines cls name then Returned (getattr (table cls) name)
  else Raised (AttributeError name).

(** [type(self).FILTER_EXCLUDE_FIELDS]. *)
Definition FILTER_EXCLUDE_FIELDS (self : AnyFilter) : list string :=
  match self with
  | OfUserScoped _ => UserScopedFilter.FILTER_EXCLUDE_FIELDS
  | OfWorkspaceScoped _ => WorkspaceScopedFilter.FILTER_EXCLUDE_FIELDS
  | OfShareable _ => ShareableFilter.FILTER_EXCLUDE_FIELDS
  | OfModelScoped _ => ModelScopedFilter.FILTER_EXCLUDE_FIELDS
  | OfModelVersionScoped _ => ModelVersionScopedFilter.FILTER_EXCLUDE_FIELDS
  end.

(** [BaseFilter.apply_filter(self, query, table)]. *)
Definition BaseFilter_apply_filter (self : AnyFilter) (query : Select)
    (cls : TableClass) : Outcome Exception Select :=
  match BaseFilter_apply_filter_on (FILTER_EXCLUDE_FIELDS self) (fields self)
          (base_of self) query cls with
  | Returned query => Returned query
  | Raised e => Raised (BaseFilterRaised e)
  end.

(** [UserScopedFilter.apply_filter]. *)
Definition UserScopedFilter_apply_filter (self : AnyFilter) (query : Select)
    (cls : TableClass) : Outcome Exception Select :=
  and_then (BaseFilter_apply_filter self query cls) (fun query =>
  if truthy (scope_user_of self) then
    and_then (getattr cls "user_id") (fun user_id_ =>
    let scope_filter := or_ [eq_ user_id_ (scope_user_of self)] in
    Returned (where_ query scope_filter))
  else Returned query).

(** [WorkspaceScopedFilter.apply_filter]. *)
Definition WorkspaceScopedFilter_apply_filter (self : AnyFilter)
    (query : Select) (cls : TableClass) : Outcome Exception Select :=
  and_then (BaseFilter_apply_filter self query cls) (fun query =>
  if truthy (scope_workspace_of self) then
    and_then (getattr cls "workspace_id") (fun workspace_id_ =>
    and_then (getattr cls "workspace_id") (fun workspace_id_' =>
    let scope_filter :=
      or_ [eq_ workspace_id_ (scope_workspace_of self);
           is_ workspace_id_' PyNone] in
    Returned (where_ query scope_filter)))
  else Returned query).

(** [ShareableFilter.apply_filter]. *)
Definition ShareableFilter_apply_filter (self : AnyFilter) (query : Select)
    (cls : TableClass) : Outcome Exception Select :=
  and_then (WorkspaceScopedFilter_apply_filter self query cls) (fun query =>
  if truthy (scope_user_of self) then
    and_then (getattr cls "user_id") (fun user_id_ =>
    and_then (getattr cls "is_shared") (fun is_shared_ =>
    let scope_filter :=
      or_ [eq_ user_id_ (scope_user_of self); is_ is_shared_ PyTrue] in
    Returned (where_ query scope_filter)))
  else Returned query).

(** [ModelScopedFilter.apply_filter]. *)
Definition ModelScopedFilter_apply_filter (self : AnyFilter) (query : Select)
    (cls : TableClass) : Outcome Exception Select :=
  and_then (WorkspaceScopedFilter_apply_filter self query cls) (fun query =>
  if truthy (_model_id_of self) then
    and_then (getattr cls "model_id") (fun model_id_ =>
    Returned (where_ query (eq_ model_id_ (_model_id_of self))))
  else Returned query).

(** [ModelVersionScopedFilter.apply_filter]. *)
Definition ModelVersionScopedFilter_apply_filter (self : AnyFilter)
    (query : Select) (cls : TableClass) : Outcome Exception Select :=
  and_then (ModelScopedFilter_apply_filter self query cls) (fun query =>
  and_then (getattr cls "model_version_id") (fun model_version_id_ =>
  Returned (where_ query (eq_ model_version_id_ (_model_version_id_of self))))).

(** [self.apply_filter(query, table)], dispatched on the class of the
    object. *)
Definition apply_filter (self : AnyFilter) (query : Select) (cls : TableClass)
  : Outcome Exception Select :=
  match self with
  | OfUserScoped _ => UserScopedFilter_apply_filter self query cls
  | OfWorkspaceScoped _ => WorkspaceScopedFilter_apply_filter self query cls
  | OfShareable _ => ShareableFilter_apply_filter self query cls
  | OfModelScoped _ => ModelScopedFilter_apply_filter self query cls
  | OfModelVersionScoped _ =>
      ModelVersionScopedFilter_apply_filter self query cls
  end.

End Methods.
End OnTableClass.

(** ** A concrete setting

    One implementation of each interface, on which the general statements
    below are run: the textual form of [uuid.UUID], a client over a fixed
    directory of models and model versions, and a [BaseFilter] whose
    generic column filters are a list of criteria. *)

Module Fixture.

(** The value of a hexadecimal digit, in either case. *)
Definition hex_value (ch : ascii) : option N := HexString.ascii_to_digit ch.

Fixpoint remove_hyphens (s : string) : string :=
  match s with
  | EmptyString => EmptyString
  | String ch s' =>
      if Ascii.eqb ch "-" then remove_hyphens s'
      else String ch (remove_hyphens s')
  end.

Fixpoint int_hex (s : string) (acc : N) : option N :=
  match s with
  | EmptyString => Some acc
  | String ch s' =>
      match hex_value ch with
      | Some d => int_hex s' (16 * acc + d)%N
      | None => None
      end
  end.

(** [UUID(s)] on the hyphenated or plain form of 32 hexadecimal digits.
    The other spellings [uuid.UUID] accepts (a [urn:uuid:] prefix, braces)
    are not covered: they are read as names here. *)
Definition parse_uuid (s : string) : option UUID :=
  let hex := remove_hyphens s in
  if Nat.eqb (String.length hex) 32 then int_hex hex 0%N else None.

Definition hex_char (d : N) : ascii :=
  match String.get (N.to_nat d) "0123456789abcdef" with
  | Some ch => ch
  | None => "0"%char
  end.

Fixpoint hex_digits (k : nat) (n : N) (acc : string) : string :=
  match k with
  | O => acc
  | S k' => hex_digits k' (n / 16)%N (String (hex_char (n mod 16)%N) acc)
  end.

(** [str(u)]: the form 8-4-4-4-12 of ['%032x' % u.int]. *)
Definition print_uuid (u : UUID) : string :=
  let hex := hex_digits 32 u "" in
  substring 0 8 hex ++ "-" ++ substring 8 4 hex ++ "-" ++
  substring 12 4 hex ++ "-" ++ substring 16 4 hex ++ "-" ++
  substring 20 12 hex.

#[export] Instance py_uuid : UUIDLib := {|
  UUID_of_str := parse_uuid;
  str_of_UUID := print_uuid
|}.

(** The outcomes of a directory look-up that finds nothing, or more than
    one entry. *)
Inductive DirectoryError : Type := NotFound | Ambiguous.

Definition model_a : UUID := 0x11111111111111111111111111111111%N.
Definition model_b : UUID := 0x22222222222222222222222222222222%N.
Definition model_c : UUID := 0x33333333333333333333333333333333%N.
Definition version_a1 : UUID := 0xa1a1a1a1a1a1a1a1a1a1a1a1a1a1a1a1%N.
Definition user_1 : UUID := 0x01010101010101010101010101010101%N.
Definition user_2 : UUID := 0x02020202020202020202020202020202%N.
Definition workspace_1 : UUID := 0x0a0a0a0a0a0a0a0a0a0a0a0a0a0a0a0a%N.
Definition workspace_2 : UUID := 0x0b0b0b0b0b0b0b0b0b0b0b0b0b0b0b0b%N.

(** Registered models, by name; the name ["twin"] is taken twice. *)
Definition models : list (string * UUID) :=
  [("my-model", model_a); ("twin", model_b); ("twin", model_c)].

(** Registered model versions: model, version name, identifier. *)
Definition model_versions : list (UUID * string * UUID) :=
  [(model_a, "v1", version_a1)].

Definition unique {A : Type} (l : list A) : Outcome DirectoryError A :=
  match l with
  | [] => Raised NotFound
  | [x] => Returned x
  | _ => Raised Ambiguous
  end.

Definition directory_get_model (ref : NameOrId) : Outcome DirectoryError UUID :=
  match ref with
  | Uuid u => unique (filter (N.eqb u) (map snd models))
  | Str s => unique (map snd (filter (fun m => fst m =? s) models))
  end.

Definition directory_get_model_version (model : option UUID) (ref : NameOrId)
  : Outcome DirectoryError UUID :=
  match ref with
  | Uuid v =>
      unique (filter (N.eqb v) (map snd model_versions))
  | Str s =>
      match model with
      | Some m =>
          unique (map snd
            (filter (fun e => N.eqb (fst (fst e)) m && (snd (fst e) =? s))
                    model_versions))
      | None => Raised NotFound
      end
  end.

#[export] Instance directory : Client := {|
  ClientError := DirectoryError;
  get_model := directory_get_model;
  get_model_version := directory_get_model_version
|}.

(** A [BaseFilter] that holds its generated column filters and adds each
    of them to the query. *)
#[export] Instance column_filters : BaseFilterClass := {|
  BaseFilter := list ColumnElement;
  BaseFilter_FILTER_EXCLUDE_FIELDS :=
    ["sort_by"; "page"; "size"; "logical_operator"];
  BaseFilter_CLI_EXCLUDE_FIELDS := [];
  BaseFilter_apply_filter := fun self query _ => fold_left where_ self query
|}.

Definition table : Table := {| __tablename__ := "model_versions_artifacts" |}.

(** [select(table)]. *)
Definition select : Select := {| _from := table; _where_criteria := [] |}.

(** A freshly constructed filter of each class, with no scope set. *)
Definition workspace_scoped : WorkspaceScopedFilter.t :=
  {| WorkspaceScopedFilter.base := [];
     WorkspaceScopedFilter.scope_workspace := None |}.

Definition user_scoped : UserScopedFilter.t :=
  {| UserScopedFilter.base := []; UserScopedFilter.scope_user := None |}.

Definition shareable : ShareableFilter.t :=
  {| ShareableFilter.super := workspace_scoped;
     ShareableFilter.scope_user := None |}.

Definition model_scoped : ModelScopedFilter.t :=
  {| ModelScopedFilter.super := workspace_scoped;
     ModelScopedFilter._model_id := None |}.

Definition model_version_scoped : ModelVersionScopedFilter.t :=
  {| ModelVersionScopedFilter.super := model_scoped;
     ModelVersionScopedFilter._model_version_id := None |}.

(** The world before any look-up, around object [f]. *)
Definition fresh {S : Type} (f : S) : World S :=
  {| self := f; lookups := [] |}.

(** A reference in the textual form of a UUID. *)
Definition some_uuid : string := "12345678-1234-5678-1234-567812345678".

(** A row owned by [owner], in workspace [ws], linked to model [model_a]
    and its version [version_a1]. *)
Definition row (owner : UUID) (shared : bool) (ws : option UUID) : Resource :=
  {| user_id := Some owner; workspace_id := ws; is_shared := shared;
     model_id := Some model_a; model_version_id := Some version_a1 |}.

(** A platform for the orchestrator: a step is its name, whether it asks
    for resources, and its [run_args]; the image of step [n] is
    ["zenml:" ++ n]; the container of image ["zenml:broken"] fails. *)
#[export] Instance local_types : ClearMLOrchestrator.PlatformTypes := {|
  ClearMLOrchestrator.Step := string * bool * Dict Any;
  ClearMLOrchestrator.Schedule := string;
  ClearMLOrchestrator.Stack := unit;
  ClearMLOrchestrator.PlatformError := string
|}.

#[export] Instance local_platform : ClearMLOrchestrator.Platform := {|
  ClearMLOrchestrator.DockerClient_from_env := Returned tt;
  ClearMLOrchestrator.get_entrypoint_command :=
    ["python"; "-m"; "zenml.entrypoints.entrypoint"];
  ClearMLOrchestrator.check_local_paths := fun _ => Returned tt;
  ClearMLOrchestrator.local_stores_path := "/home/zenml/local_stores";
  ClearMLOrchestrator.ENV_ZENML_LOCAL_STORES_PATH := "ZENML_LOCAL_STORES_PATH";
  ClearMLOrchestrator.uuid4 := 0x12345678123456781234567812345678%N;
  ClearMLOrchestrator.step_config_name := fun step => fst (fst step);
  ClearMLOrchestrator.requires_resources_in_orchestration_environment :=
    fun step => snd (fst step);
  ClearMLOrchestrator.get_entrypoint_arguments :=
    fun step_name _ => ["--step_name"; step_name];
  ClearMLOrchestrator.run_args := fun step => snd step;
  ClearMLOrchestrator.get_image :=
    fun _ step_name => Returned ("zenml:" ++ step_name);
  ClearMLOrchestrator.sys_platform := "linux";
  ClearMLOrchestrator.os_getuid := 1000;
  ClearMLOrchestrator.containers_run :=
    fun kwargs =>
      if ClearMLOrchestrator.image kwargs =? "zenml:broken"
      then Raised "exit status 1"
      else Returned ["step finished"];
  ClearMLOrchestrator.strip_decode := fun line => line;
  ClearMLOrchestrator.get_run_id_for_orchestrator_run_id := fun _ => model_a;
  ClearMLOrchestrator.get_run_name := fun _ => Returned "run-1";
  ClearMLOrchestrator.run_duration_text := "2s"
|}.

Definition plain_step (name : string) : string * (string * bool * Dict Any) :=
  (name, (name, false, [])).

(** A deployment of three steps, on a schedule. *)
Definition deployment : ClearMLOrchestrator.Deployment :=
  {| ClearMLOrchestrator.id := model_b;
     ClearMLOrchestrator.schedule := Some "0 4 * * *";
     ClearMLOrchestrator.step_configurations :=
       [plain_step "loader"; plain_step "trainer"; plain_step "evaluator"] |}.

(** A deployment whose second step sets [environment] in its [run_args]. *)
Definition clashing_deployment : ClearMLOrchestrator.Deployment :=
  {| ClearMLOrchestrator.id := model_b;
     ClearMLOrchestrator.schedule := None;
     ClearMLOrchestrator.step_configurations :=
       [plain_step "loader";
        ("trainer", ("trainer", false, [("environment", AnyStr "A=1")]))] |}.

(** A [BaseFilter.apply_filter] on a table class: after the column filters
    the object holds, one filter [column == value] for every field that is
    set and is not named in the list of excluded fields. *)
Definition generated_filters (excl : list string)
    (fields : Dict (option UUID)) (t : Table) : list ColumnElement :=
  flat_map
    (fun kv : string * option UUID =>
       if existsb (String.eqb (fst kv)) excl then []
       else match snd kv with
            | Some u => [eq_ (getattr t (fst kv)) (Some u)]
            | None => []
            end)
    fields.

#[export] Instance generic_filters : OnTableClass.BaseFilterOnClass := {|
  OnTableClass.BaseFilterError := string;
  OnTableClass.BaseFilter_apply_filter_on :=
    fun excl fields self query cls =>
      Returned
        (fold_left where_
           (self ++ generated_filters excl fields (OnTableClass.table cls))
           query)
|}.

(** A schema class with the columns of every scope, and one with the
    attributes of [BaseSchema] only. *)
Definition scoped_schema : OnTableClass.TableClass :=
  {| OnTableClass.table := table;
     OnTableClass.attributes :=
       ["id"; "created"; "updated"; "user_id"; "workspace_id"; "is_shared";
        "model_id"; "model_version_id"] |}.

Definition base_schema : OnTableClass.TableClass :=
  {| OnTableClass.table := table;
     OnTableClass.attributes := ["id"; "created"; "updated"] |}.

End Fixture.

(** ** What a row must satisfy *)

(** The row is owned by user [u]. *)
Definition owned_by (r : Resource) (u : UUID) : bool :=
  match user_id r with
  | Some u' => N.eqb u' u
  | None => false
  end.

(** The row belongs to workspace [w], or to no workspace. *)
Definition in_workspace_or_global (r : Resource) (w : UUID) : bool :=
  match workspace_id r with
  | Some w' => N.eqb w' w
  | None => true
  end.

(** The row's [model_id] is [m]. *)
Definition of_model (r : Resource) (m : UUID) : bool :=
  match model_id r with
  | Some m' => N.eqb m' m
  | None => false
  end.

(** The row's [model_version_id] is [v]; with [v = None], the row has no
    model version. *)
Definition of_model_version (r : Resource) (v : option UUID) : bool :=
  match v, model_version_id r with
  | Some v, Some v' => N.eqb v' v
  | None, None => true
  | _, _ => false
  end.

(** * Properties *)

(** ** Evaluation of the scope clauses *)

(** Unfolds the evaluation of a clause down to the row's fields. *)
Ltac eval_clause :=
  unfold holds; simpl; unfold column_value; simpl.

Lemma included_where (r : Resource) (q : Select) (c : ColumnElement) :
  included r (where_ q c) = included r q && holds r c.
Proof.
  unfold included, where_; simpl.
  rewrite forallb_app; simpl. now rewrite andb_true_r.
Qed.

Lemma holds_owner_clause (r : Resource) (t : Table) (u : UUID) :
  holds r (or_ [eq_ (getattr t "user_id") (Some u)]) = owned_by r u.
Proof.
  eval_clause; unfold owned_by.
  destruct (user_id r) as [u'|]; simpl; [|reflexivity].
  now destruct (N.eqb u' u).
Qed.

Lemma holds_owner_or_shared_clause (r : Resource) (t : Table) (u : UUID) :
  holds r (or_ [eq_ (getattr t "user_id") (Some u);
                is_ (getattr t "is_shared") PyTrue])
  = owned_by r u || is_shared r.
Proof.
  eval_clause; unfold owned_by.
  destruct (user_id r) as [u'|]; simpl.
  - destruct (N.eqb u' u); simpl; now destruct (is_shared r).
  - now destruct (is_shared r).
Qed.

Lemma holds_workspace_clause (r : Resource) (t : Table) (w : UUID) :
  holds r (or_ [eq_ (getattr t "workspace_id") (Some w);
                is_ (getattr t "workspace_id") PyNone])
  = in_workspace_or_global r w.
Proof.
  eval_clause; unfold in_workspace_or_global.
  destruct (workspace_id r) as [w'|]; simpl; [|reflexivity].
  now destruct (N.eqb w' w).
Qed.

Lemma holds_model_clause (r : Resource) (t : Table) (m : UUID) :
  holds r (eq_ (getattr t "model_id") (Some m)) = of_model r m.
Proof.
  eval_clause; unfold of_model.
  destruct (model_id r) as [m'|]; simpl; [|reflexivity].
  now destruct (N.eqb m' m).
Qed.

Lemma holds_model_version_clause (r : Resource) (t : Table)
    (v : option UUID) :
  holds r (eq_ (getattr t "model_version_id") v) = of_model_version r v.
Proof.
  eval_clause; unfold of_model_version.
  destruct v as [v|], (model_version_id r) as [v'|]; simpl; try reflexivity.
  now destruct (N.eqb v' v).
Qed.

(** ** The runs of [apply_filter], class by class *)

Section Runs.
Context {uuid_lib : UUIDLib} {base_filter : BaseFilterClass} {client : Client}.

Lemma UserScoped_apply_filter_run (q : Select) (t : Table)
    (w : World UserScopedFilter.t) :
  UserScopedFilter.apply_filter q t w =
  (Returned
     (let q0 := BaseFilter_apply_filter (UserScopedFilter.base (self w)) q t in
      match UserScopedFilter.scope_user (self w) with
      | Some u => where_ q0 (or_ [eq_ (getattr t "user_id") (Some u)])
      | None => q0
      end), w).
Proof.
  unfold UserScopedFilter.apply_filter, bind, gets, ret; simpl.
  now destruct (UserScopedFilter.scope_user (self w)).
Qed.

Lemma WorkspaceScoped_apply_filter_run (q : Select) (t : Table)
    (w : World WorkspaceScopedFilter.t) :
  WorkspaceScopedFilter.apply_filter q t w =
  (Returned
     (let q0 :=
        BaseFilter_apply_filter (WorkspaceScopedFilter.base (self w)) q t in
      match WorkspaceScopedFilter.scope_workspace (self w) with
      | Some ws =>
          where_ q0 (or_ [eq_ (getattr t "workspace_id") (Some ws);
                          is_ (getattr t "workspace_id") PyNone])
      | None => q0
      end), w).
Proof.
  unfold WorkspaceScopedFilter.apply_filter, bind, gets, ret; simpl.
  now destruct (WorkspaceScopedFilter.scope_workspace (self w)).
Qed.

Lemma Shareable_apply_filter_run (q : Select) (t : Table)
    (w : World ShareableFilter.t) :
  ShareableFilter.apply_filter q t w =
  (Returned
     (let q1 :=
        let q0 :=
          BaseFilter_apply_filter
            (WorkspaceScopedFilter.base (ShareableFilter.super (self w))) q t in
        match WorkspaceScopedFilter.scope_workspace
                (ShareableFilter.super (self w)) with
        | Some ws =>
            where_ q0 (or_ [eq_ (getattr t "workspace_id") (Some ws);
                            is_ (getattr t "workspace_id") PyNone])
        | None => q0
        end in
      match ShareableFilter.scope_user (self w) with
      | Some u =>
          where_ q1 (or_ [eq_ (getattr t "user_id") (Some u);
                          is_ (getattr t "is_shared") PyTrue])
      | None => q1
      end), w).
Proof.
  destruct w as [[p su] calls].
  unfold ShareableFilter.apply_filter, bind, super_call, gets, ret.
  rewrite WorkspaceScoped_apply_filter_run; simpl.
  now destruct su.
Qed.

Lemma ModelScoped_apply_filter_run (q : Select) (t : Table)
    (w : World ModelScopedFilter.t) :
  ModelScopedFilter.apply_filter q t w =
  (Returned
     (let q1 :=
        let q0 :=
          BaseFilter_apply_filter
            (WorkspaceScopedFilter.base (ModelScopedFilter.super (self w)))
            q t in
        match WorkspaceScopedFilter.scope_workspace
                (ModelScopedFilter.super (self w)) with
        | Some ws =>
            where_ q0 (or_ [eq_ (getattr t "workspace_id") (Some ws);
                            is_ (getattr t "workspace_id") PyNone])
        | None => q0
        end in
      match ModelScopedFilter._model_id (self w) with
      | Some m => where_ q1 (eq_ (getattr t "model_id") (Some m))
      | None => q1
      end), w).
Proof.
  destruct w as [[p m] calls].
  unfold ModelScopedFilter.apply_filter, bind, super_call, gets, ret.
  rewrite WorkspaceScoped_apply_filter_run; simpl.
  now destruct m.
Qed.

Lemma ModelVersionScoped_apply_filter_run (q : Select) (t : Table)
    (w : World ModelVersionScopedFilter.t) :
  ModelVersionScopedFilter.apply_filter q t w =
  (Returned
     (let m := ModelVersionScopedFilter.super (self w) in
      let q1 :=
        let q0 :=
          BaseFilter_apply_filter
            (WorkspaceScopedFilter.base (ModelScopedFilter.super m)) q t in
        match WorkspaceScopedFilter.scope_workspace
                (ModelScopedFilter.super m) with
        | Some ws =>
            where_ q0 (or_ [eq_ (getattr t "workspace_id") (Some ws);
                            is_ (getattr t "workspace_id") PyNone])
        | None => q0
        end in
      let q2 :=
        match ModelScopedFilter._model_id m with
        | Some m => where_ q1 (eq_ (getattr t "model_id") (Some m))
        | None => q1
        end in
      where_ q2
        (eq_ (getattr t "model_version_id")
             (ModelVersionScopedFilter._model_version_id (self w)))), w).
Proof.
  destruct w as [[[p m] v] calls].
  unfold ModelVersionScopedFilter.apply_filter, bind, super_call, gets, ret.
  now rewrite ModelScoped_apply_filter_run.
Qed.

(** Criteria added one after the other. *)
Lemma included_fold_where (r : Resource) (cs : list ColumnElement)
    (q : Select) :
  included r (fold_left where_ cs q) = included r q && forallb (holds r) cs.
Proof.
  revert q; induction cs as [|c cs IH]; intros q; simpl.
  - now rewrite andb_true_r.
  - now rewrite IH, included_where, andb_assoc.
Qed.

Lemma criteria_fold_where (cs : list ColumnElement) (q : Select) :
  _where_criteria (fold_left where_ cs q) = (_where_criteria q ++ cs)%list.
Proof.
  revert q; induction cs as [|c cs IH]; intros q; simpl.
  - now rewrite app_nil_r.
  - rewrite IH; simpl. now rewrite <- app_assoc.
Qed.

(** Whatever the class of the object, [apply_filter] returns, leaves the
    object and the record of look-ups as they were, and its query is the
    one of [BaseFilter.apply_filter] with some criteria added. *)
Lemma apply_filter_run (q : Select) (t : Table) (w : World AnyFilter) :
  exists cs : list ColumnElement,
    apply_filter q t w =
    (Returned
       (fold_left where_ cs (BaseFilter_apply_filter (base_of (self w)) q t)),
     w).
Proof.
  destruct w as [f calls]; unfold apply_filter, on_class; simpl.
  destruct f as [f|f|f|f|f].
  - rewrite UserScoped_apply_filter_run; simpl.
    destruct (UserScopedFilter.scope_user f);
      [eexists [_] | exists []]; reflexivity.
  - rewrite WorkspaceScoped_apply_filter_run; simpl.
    destruct (WorkspaceScopedFilter.scope_workspace f);
      [eexists [_] | exists []]; reflexivity.
  - rewrite Shareable_apply_filter_run; simpl.
    destruct (WorkspaceScopedFilter.scope_workspace (ShareableFilter.super f)),
             (ShareableFilter.scope_user f);
      [eexists [_; _] | eexists [_] | eexists [_] | exists []]; reflexivity.
  - rewrite ModelScoped_apply_filter_run; simpl.
    destruct (WorkspaceScopedFilter.scope_workspace
                (ModelScopedFilter.super f)),
             (ModelScopedFilter._model_id f);
      [eexists [_; _] | eexists [_] | eexists [_] | exists []]; reflexivity.
  - rewrite ModelVersionScoped_apply_filter_run; simpl.
    destruct (WorkspaceScopedFilter.scope_workspace
                (ModelScopedFilter.super (ModelVersionScopedFilter.super f))),
             (ModelScopedFilter._model_id (ModelVersionScopedFilter.super f));
      [eexists [_; _; _] | eexists [_; _] | eexists [_; _] | eexists [_]];
      reflexivity.
Qed.

(** ** The runs of the setters *)

Lemma set_scope_model_run (ref : NameOrId) (w : World ModelScopedFilter.t) :
  ModelScopedFilter.set_scope_model ref w =
  match UUID_of_str (str ref) with
  | Some u =>
      (Returned tt,
       {| self := {| ModelScopedFilter.super :=
                       ModelScopedFilter.super (self w);
                     ModelScopedFilter._model_id := Some u |};
          lookups := lookups w |})
  | None =>
      match get_model ref with
      | Returned u =>
          (Returned tt,
           {| self := {| ModelScopedFilter.super :=
                           ModelScopedFilter.super (self w);
                         ModelScopedFilter._model_id := Some u |};
              lookups := lookups w ++ [get_model_call ref] |})
      | Raised e =>
          (Raised e,
           {| self := self w; lookups := lookups w ++ [get_model_call ref] |})
      end
  end.
Proof.
  unfold ModelScopedFilter.set_scope_model, bind, lookup, modify, ret.
  destruct (UUID_of_str (str ref)); [reflexivity|].
  now destruct (get_model ref).
Qed.

Lemma set_scope_model_version_run (ref : NameOrId)
    (w : World ModelVersionScopedFilter.t) :
  ModelVersionScopedFilter.set_scope_model_version ref w =
  let model := ModelScopedFilter._model_id
                 (ModelVersionScopedFilter.super (self w)) in
  match UUID_of_str (str ref) with
  | Some v =>
      (Returned tt,
       {| self := {| ModelVersionScopedFilter.super :=
                       ModelVersionScopedFilter.super (self w);
                     ModelVersionScopedFilter._model_version_id := Some v |};
          lookups := lookups w |})
  | None =>
      match get_model_version model ref with
      | Returned v =>
          (Returned tt,
           {| self := {| ModelVersionScopedFilter.super :=
                           ModelVersionScopedFilter.super (self w);
                         ModelVersionScopedFilter._model_version_id :=
                           Some v |};
              lookups := lookups w ++ [get_model_version_call model ref] |})
      | Raised e =>
          (Raised e,
           {| self := self w;
              lookups := lookups w ++ [get_model_version_call model ref] |})
      end
  end.
Proof.
  unfold ModelVersionScopedFilter.set_scope_model_version,
    bind, lookup, modify, gets, ret; simpl.
  destruct (UUID_of_str (str ref)); [reflexivity|].
  now destruct (get_model_version _ ref).
Qed.

(** [set_scope_model] as inherited by [ModelVersionScopedFilter]. *)
Lemma inherited_set_scope_model_run (ref : NameOrId)
    (w : World ModelVersionScopedFilter.t) :
  ModelVersionScopedFilter.set_scope_model ref w =
  let set_id := fun u =>
    {| ModelVersionScopedFilter.super :=
         {| ModelScopedFilter.super :=
              ModelScopedFilter.super
                (ModelVersionScopedFilter.super (self w));
            ModelScopedFilter._model_id := Some u |};
       ModelVersionScopedFilter._model_version_id :=
         ModelVersionScopedFilter._model_version_id (self w) |} in
  match UUID_of_str (str ref) with
  | Some u => (Returned tt, {| self := set_id u; lookups := lookups w |})
  | None =>
      match get_model ref with
      | Returned u =>
          (Returned tt,
           {| self := set_id u;
              lookups := lookups w ++ [get_model_call ref] |})
      | Raised e =>
          (Raised e,
           {| self := self w; lookups := lookups w ++ [get_model_call ref] |})
      end
  end.
Proof.
  destruct w as [[m v] calls].
  unfold ModelVersionScopedFilter.set_scope_model, super_call.
  rewrite set_scope_model_run; simpl.
  destruct (UUID_of_str (str ref)); [reflexivity|].
  destruct (get_model ref); [reflexivity|].
  now destruct m.
Qed.

End Runs.

(** ** The claims *)

Section Claims.
Context {uuid_lib : UUIDLib} {base_filter : BaseFilterClass} {client : Client}.

(** The identity law holds for the four classes whose [apply_filter]
    guards each clause by [if self.<scope>:]. *)
Lemma unscoped_apply_filter_is_base (f : AnyFilter) (q : Select) (t : Table)
    (calls : list ClientCall) :
  unscoped f = true ->
  (forall g, f <> OfModelVersionScoped g) ->
  apply_filter q t {| self := f; lookups := calls |} =
  (Returned (BaseFilter_apply_filter (base_of f) q t),
   {| self := f; lookups := calls |}).
Proof.
  intros Hun Hcls; unfold apply_filter, on_class; simpl.
  destruct f as [f|f|f|f|f]; simpl in Hun.
  - rewrite UserScoped_apply_filter_run; simpl.
    now destruct (UserScopedFilter.scope_user f).
  - rewrite WorkspaceScoped_apply_filter_run; simpl.
    now destruct (WorkspaceScopedFilter.scope_workspace f).
  - rewrite Shareable_apply_filter_run; simpl.
    destruct (WorkspaceScopedFilter.scope_workspace (ShareableFilter.super f));
      [discriminate|].
    now destruct (ShareableFilter.scope_user f).
  - rewrite ModelScoped_apply_filter_run; simpl.
    destruct (WorkspaceScopedFilter.scope_workspace
                (ModelScopedFilter.super f)); [discriminate|].
    now destruct (ModelScopedFilter._model_id f).
  - now elim (Hcls f).
Qed.

Lemma where_neq (q : Select) (c : ColumnElement) : where_ q c <> q.
Proof.
  intros Heq. apply (f_equal (fun s => length (_where_criteria s))) in Heq.
  simpl in Heq. rewrite length_app in Heq. simpl in Heq. lia.
Qed.

(** C1, as amended. When [set_scope_model_version] is called on a filter
    whose model scope is not set, no error of its own is raised: a
    reference that parses as a UUID is stored and the call returns without
    any look-up; a reference that does not parse is looked up once, with
    [model_name_or_id = None], and the call returns with the identifier
    found, or raises what the look-up raises and leaves the filter as it
    was. *)
Theorem C1_set_scope_model_version_without_model_scope
    (ref : NameOrId) (w : World ModelVersionScopedFilter.t) :
  ModelScopedFilter._model_id (ModelVersionScopedFilter.super (self w))
    = None ->
  ModelVersionScopedFilter.set_scope_model_version ref w =
  match UUID_of_str (str ref) with
  | Some v =>
      (Returned tt,
       {| self := {| ModelVersionScopedFilter.super :=
                       ModelVersionScopedFilter.super (self w);
                     ModelVersionScopedFilter._model_version_id := Some v |};
          lookups := lookups w |})
  | None =>
      match get_model_version None ref with
      | Returned v =>
          (Returned tt,
           {| self := {| ModelVersionScopedFilter.super :=
                           ModelVersionScopedFilter.super (self w);
                         ModelVersionScopedFilter._model_version_id :=
                           Some v |};
              lookups := lookups w ++ [get_model_version_call None ref] |})
      | Raised e =>
          (Raised e,
           {| self := self w;
              lookups := lookups w ++ [get_model_version_call None ref] |})
      end
  end.
Proof.
  intros Hnone. rewrite set_scope_model_version_run; simpl.
  now rewrite Hnone.
Qed.

(** C2, at the input where it fails. A [ModelVersionScopedFilter] on which
    no scope has been set does not return the query of [BaseFilter]
    unchanged: [apply_filter] adds [model_version_id == None], which keeps
    only the rows that have no model version. *)
Theorem C2_unscoped_model_version_filter_adds_criterion
    (b : BaseFilter) (q : Select) (t : Table) (calls : list ClientCall)
    (r : Resource) :
  let f :=
    {| ModelVersionScopedFilter.super :=
         {| ModelScopedFilter.super :=
              {| WorkspaceScopedFilter.base := b;
                 WorkspaceScopedFilter.scope_workspace := None |};
            ModelScopedFilter._model_id := None |};
       ModelVersionScopedFilter._model_version_id := None |} in
  let q0 := BaseFilter_apply_filter b q t in
  let q' := where_ q0 (eq_ (getattr t "model_version_id") None) in
  unscoped (OfModelVersionScoped f) = true /\
  apply_filter q t {| self := OfModelVersionScoped f; lookups := calls |} =
    (Returned q', {| self := OfModelVersionScoped f; lookups := calls |}) /\
  q' <> q0 /\
  included r q' =
    included r q0 &&
    match model_version_id r with Some _ => false | None => true end.
Proof.
  intros f q0 q'. repeat split.
  - apply where_neq.
  - unfold q'. rewrite included_where, holds_model_version_clause.
    unfold of_model_version. now destruct (model_version_id r).
Qed.

(** C3. With the user scope set to [U], the rows a [ShareableFilter]
    returns are the rows of the [BaseFilter] query, within the workspace
    scope if one is set, that are owned by [U] or shared; the rows a
    [UserScopedFilter] returns are the rows of the [BaseFilter] query that
    are owned by [U], whatever [is_shared] says. *)
Theorem C3_user_scope_owner_or_shared (U : UUID) (q : Select) (t : Table)
    (r : Resource) :
  (forall (b : BaseFilter) (ws : option UUID),
     exists q' : Select,
       query_of (ShareableFilter.apply_filter q t)
         {| ShareableFilter.super :=
              {| WorkspaceScopedFilter.base := b;
                 WorkspaceScopedFilter.scope_workspace := ws |};
            ShareableFilter.scope_user := Some U |} = Some q' /\
       included r q' =
         included r (BaseFilter_apply_filter b q t)
         && match ws with
            | Some w => in_workspace_or_global r w
            | None => true
            end
         && (match user_id r with
             | Some u => N.eqb u U
             | None => false
             end || is_shared r)) /\
  (forall b : BaseFilter,
     exists q' : Select,
       query_of (UserScopedFilter.apply_filter q t)
         {| UserScopedFilter.base := b; UserScopedFilter.scope_user := Some U |}
         = Some q' /\
       included r q' =
         included r (BaseFilter_apply_filter b q t)
         && match user_id r with
            | Some u => N.eqb u U
            | None => false
            end).
Proof.
  split.
  - intros b ws. unfold query_of.
    rewrite Shareable_apply_filter_run; simpl.
    eexists. split; [reflexivity|].
    destruct ws as [w|];
      rewrite !included_where, ?holds_workspace_clause,
        holds_owner_or_shared_clause, ?andb_true_r; reflexivity.
  - intros b. unfold query_of.
    rewrite UserScoped_apply_filter_run; simpl.
    eexists. split; [reflexivity|].
    now rewrite included_where, holds_owner_clause.
Qed.

(** Under a workspace scope, whatever the class of the filter, the rows
    kept belong to the workspace or to none. *)
Lemma workspace_scope_of_any_class (f : AnyFilter) (W : UUID) (q : Select)
    (t : Table) (calls : list ClientCall) (r : Resource) :
  scope_workspace_of f = Some W ->
  exists q' : Select,
    apply_filter q t {| self := f; lookups := calls |} =
      (Returned q', {| self := f; lookups := calls |}) /\
    (included r q' = true -> in_workspace_or_global r W = true).
Proof.
  intros HW; unfold apply_filter, on_class; simpl.
  destruct f as [f|f|f|f|f]; simpl in HW.
  - discriminate.
  - rewrite WorkspaceScoped_apply_filter_run; simpl. rewrite HW.
    eexists. split; [reflexivity|].
    rewrite included_where, holds_workspace_clause.
    intros Hin. now apply andb_true_iff in Hin.
  - rewrite Shareable_apply_filter_run; simpl. rewrite HW.
    eexists. split; [reflexivity|].
    destruct (ShareableFilter.scope_user f);
      rewrite ?included_where, holds_workspace_clause; intros Hin;
      repeat (apply andb_true_iff in Hin as [Hin ?]); assumption.
  - rewrite ModelScoped_apply_filter_run; simpl. rewrite HW.
    eexists. split; [reflexivity|].
    destruct (ModelScopedFilter._model_id f);
      rewrite ?included_where, holds_workspace_clause; intros Hin;
      repeat (apply andb_true_iff in Hin as [Hin ?]); assumption.
  - rewrite ModelVersionScoped_apply_filter_run; simpl. rewrite HW.
    eexists. split; [reflexivity|].
    destruct (ModelScopedFilter._model_id (ModelVersionScopedFilter.super f));
      rewrite ?included_where, holds_workspace_clause; intros Hin;
      repeat (apply andb_true_iff in Hin as [Hin ?]); assumption.
Qed.

(** C4. With the workspace scope set to [W], a [WorkspaceScopedFilter]
    keeps, of the rows of the [BaseFilter] query, exactly those whose
    workspace is [W] or unset; a row of another workspace is dropped, by
    this class and by every class that inherits the workspace scope. *)
Theorem C4_workspace_scope_or_global (b : BaseFilter) (W : UUID)
    (q : Select) (t : Table) (r : Resource) :
  (exists q' : Select,
     query_of (WorkspaceScopedFilter.apply_filter q t)
       {| WorkspaceScopedFilter.base := b;
          WorkspaceScopedFilter.scope_workspace := Some W |} = Some q' /\
     included r q' =
       included r (BaseFilter_apply_filter b q t) &&
       match workspace_id r with
       | Some W' => N.eqb W' W
       | None => true
       end) /\
  (forall (f : AnyFilter) (W' : UUID),
     scope_workspace_of f = Some W ->
     workspace_id r = Some W' ->
     W' <> W ->
     exists q' : Select,
       query_of (apply_filter q t) f = Some q' /\ included r q' = false).
Proof.
  split.
  - unfold query_of. rewrite WorkspaceScoped_apply_filter_run; simpl.
    eexists. split; [reflexivity|].
    now rewrite included_where, holds_workspace_clause.
  - intros f W' HW HW' Hne.
    destruct (workspace_scope_of_any_class f W q t [] r HW) as [q' [Hq Hin]].
    exists q'. unfold query_of. rewrite Hq. split; [reflexivity|].
    destruct (included r q'); [|reflexivity].
    specialize (Hin eq_refl). unfold in_workspace_or_global in Hin.
    rewrite HW' in Hin. now apply N.eqb_eq in Hin.
Qed.

(** An [or_] keeps a row exactly when one of its clauses does. *)
Lemma holds_or (r : Resource) (clauses : list ColumnElement) :
  holds r (or_ clauses) = existsb (holds r) clauses.
Proof.
  unfold holds; simpl.
  induction clauses as [|c cs IH]; simpl; [reflexivity|].
  rewrite <- IH.
  destruct (eval r c) as [[|]|]; simpl; try reflexivity;
    match goal with
    | |- context [match ?x with Some _ => _ | None => _ end] =>
        now destruct x as [[|]|]
    end.
Qed.

(** C5. Whatever the class of the filter, the query [apply_filter] returns
    is the query of [BaseFilter.apply_filter] with criteria added after
    the ones it has, so a row it keeps is kept by that query, and by the
    query passed in when [BaseFilter.apply_filter] itself only narrows;
    inside a scope clause the conditions are alternatives: with both
    scopes of a [ShareableFilter] set, a row is kept when it passes the
    base query AND (workspace equal OR workspace null) AND (owner equal OR
    shared). *)
Theorem C5_apply_filter_only_narrows (f : AnyFilter) (q : Select) (t : Table)
    (calls : list ClientCall) (r : Resource) :
  (forall b q0 t0 r0,
     included r0 (BaseFilter_apply_filter b q0 t0) = true ->
     included r0 q0 = true) ->
  (exists (q' : Select) (cs : list ColumnElement),
     fst (apply_filter q t {| self := f; lookups := calls |}) = Returned q' /\
     _where_criteria q' =
       (_where_criteria (BaseFilter_apply_filter (base_of f) q t) ++ cs)%list
     /\
     (included r q' = true ->
      included r (BaseFilter_apply_filter (base_of f) q t) = true /\
      included r q = true)) /\
  (forall (b : BaseFilter) (W U : UUID),
     exists q' : Select,
       query_of (ShareableFilter.apply_filter q t)
         {| ShareableFilter.super :=
              {| WorkspaceScopedFilter.base := b;
                 WorkspaceScopedFilter.scope_workspace := Some W |};
            ShareableFilter.scope_user := Some U |} = Some q' /\
       included r q' =
         included r (BaseFilter_apply_filter b q t)
         && (holds r (eq_ (getattr t "workspace_id") (Some W))
             || holds r (is_ (getattr t "workspace_id") PyNone))
         && (holds r (eq_ (getattr t "user_id") (Some U))
             || holds r (is_ (getattr t "is_shared") PyTrue))).
Proof.
  intros Hbase. split.
  - destruct (apply_filter_run q t {| self := f; lookups := calls |})
      as [cs Hrun]; simpl in Hrun.
    exists (fold_left where_ cs (BaseFilter_apply_filter (base_of f) q t)), cs.
    rewrite Hrun; simpl. split; [reflexivity|]. split.
    + apply criteria_fold_where.
    + rewrite included_fold_where. intros Hin.
      apply andb_true_iff in Hin as [Hin _]. split; [exact Hin|].
      now apply Hbase in Hin.
  - intros b W U. unfold query_of.
    rewrite Shareable_apply_filter_run; simpl.
    eexists. split; [reflexivity|].
    rewrite !included_where, !holds_or; simpl.
    now rewrite !orb_false_r.
Qed.

(** C6. A reference that parses as a UUID is stored as parsed, by
    [set_scope_model] (of either class) and by [set_scope_model_version],
    and the record of look-ups stays as it was; for any reference, either
    no look-up is added or the reference does not parse. *)
Theorem C6_uuid_reference_stored_without_lookup (ref : NameOrId) (u : UUID)
    (wm : World ModelScopedFilter.t) (wv : World ModelVersionScopedFilter.t) :
  UUID_of_str (str ref) = Some u ->
  ModelScopedFilter.set_scope_model ref wm =
    (Returned tt,
     {| self := {| ModelScopedFilter.super := ModelScopedFilter.super (self wm);
                   ModelScopedFilter._model_id := Some u |};
        lookups := lookups wm |}) /\
  ModelVersionScopedFilter.set_scope_model ref wv =
    (Returned tt,
     {| self :=
          {| ModelVersionScopedFilter.super :=
               {| ModelScopedFilter.super :=
                    ModelScopedFilter.super
                      (ModelVersionScopedFilter.super (self wv));
                  ModelScopedFilter._model_id := Some u |};
             ModelVersionScopedFilter._model_version_id :=
               ModelVersionScopedFilter._model_version_id (self wv) |};
        lookups := lookups wv |}) /\
  ModelVersionScopedFilter.set_scope_model_version ref wv =
    (Returned tt,
     {| self := {| ModelVersionScopedFilter.super :=
                     ModelVersionScopedFilter.super (self wv);
                   ModelVersionScopedFilter._model_version_id := Some u |};
        lookups := lookups wv |}) /\
  (forall ref' : NameOrId,
     (lookups (snd (ModelScopedFilter.set_scope_model ref' wm)) = lookups wm
      \/ UUID_of_str (str ref') = None) /\
     (lookups (snd (ModelVersionScopedFilter.set_scope_model ref' wv))
        = lookups wv
      \/ UUID_of_str (str ref') = None) /\
     (lookups (snd (ModelVersionScopedFilter.set_scope_model_version ref' wv))
        = lookups wv
      \/ UUID_of_str (str ref') = None)).
Proof.
  intros Hparse.
  rewrite set_scope_model_run, inherited_set_scope_model_run,
    set_scope_model_version_run; simpl.
  rewrite Hparse. repeat split.
  - rewrite set_scope_model_run.
    destruct (UUID_of_str (str ref')); [now left | now right].
  - rewrite inherited_set_scope_model_run; simpl.
    destruct (UUID_of_str (str ref')); [now left | now right].
  - rewrite set_scope_model_version_run; simpl.
    destruct (UUID_of_str (str ref')); [now left | now right].
Qed.

(** ** [apply_filter] on a table class *)

Context {raising : OnTableClass.BaseFilterOnClass}.

(** The run of [apply_filter] on a table class: the exception of
    [BaseFilter.apply_filter] if it raises; otherwise [AttributeError] for
    the first column read that the class does not define; otherwise the
    query of [BaseFilter.apply_filter] with the criteria of the scopes. *)
Lemma apply_filter_on_table_class (f : AnyFilter) (q : Select)
    (cls : OnTableClass.TableClass) :
  OnTableClass.apply_filter f q cls =
  match OnTableClass.BaseFilter_apply_filter f q cls with
  | Raised e => Raised e
  | Returned q0 =>
      match find (fun c => negb (OnTableClass.defines cls c))
                 (OnTableClass.columns_read f) with
      | Some c => Raised (OnTableClass.AttributeError c)
      | None =>
          Returned
            (fold_left where_
               (OnTableClass.scope_criteria (OnTableClass.table cls) f) q0)
      end
  end.
Proof.
  destruct f as [f|f|f|f|f];
    unfold OnTableClass.apply_filter,
      OnTableClass.ModelVersionScopedFilter_apply_filter,
      OnTableClass.ModelScopedFilter_apply_filter,
      OnTableClass.ShareableFilter_apply_filter,
      OnTableClass.WorkspaceScopedFilter_apply_filter,
      OnTableClass.UserScopedFilter_apply_filter,
      OnTableClass.columns_read, OnTableClass.scope_criteria,
      OnTableClass.getattr; simpl;
    destruct (OnTableClass.BaseFilter_apply_filter _ q cls) as [q0|e]; simpl;
    try reflexivity;
    repeat match goal with
           | |- context [truthy ?o] => destruct o eqn:?; simpl
           end;
    repeat match goal with
           | |- context [OnTableClass.defines cls ?c] =>
               destruct (OnTableClass.defines cls c) eqn:?; simpl
           end;
    reflexivity.
Qed.

(** The query of the first embedding, in full: it is the one above when
    the class defines the columns and [BaseFilter.apply_filter] returns
    the same query in both. *)
Lemma apply_filter_query (f : AnyFilter) (q : Select) (t : Table)
    (calls : list ClientCall) :
  apply_filter q t {| self := f; lookups := calls |} =
  (Returned
     (fold_left where_ (OnTableClass.scope_criteria t f)
        (BaseFilter_apply_filter (base_of f) q t)),
   {| self := f; lookups := calls |}).
Proof.
  unfold apply_filter, on_class, OnTableClass.scope_criteria; simpl.
  destruct f as [f|f|f|f|f]; simpl.
  - rewrite UserScoped_apply_filter_run; simpl.
    now destruct (UserScopedFilter.scope_user f).
  - rewrite WorkspaceScoped_apply_filter_run; simpl.
    now destruct (WorkspaceScopedFilter.scope_workspace f).
  - rewrite Shareable_apply_filter_run; simpl.
    now destruct (WorkspaceScopedFilter.scope_workspace
                    (ShareableFilter.super f)),
                 (ShareableFilter.scope_user f).
  - rewrite ModelScoped_apply_filter_run; simpl.
    now destruct (WorkspaceScopedFilter.scope_workspace
                    (ModelScopedFilter.super f)),
                 (ModelScopedFilter._model_id f).
  - rewrite ModelVersionScoped_apply_filter_run; simpl.
    now destruct
      (WorkspaceScopedFilter.scope_workspace
         (ModelScopedFilter.super (ModelVersionScopedFilter.super f))),
      (ModelScopedFilter._model_id (ModelVersionScopedFilter.super f)).
Qed.

(** C7, as amended. A setter raises exactly when its reference does not
    parse and the look-up it then makes raises, and it raises that error;
    when it raises the filter object is as it was before the call.
    [apply_filter] resolves nothing and makes no look-up, but it can fail:
    it raises what [BaseFilter.apply_filter] raises, or [AttributeError]
    when the table class does not define a column the filter reads, and
    otherwise returns the query of [BaseFilter.apply_filter] with the
    criteria of the scopes. *)
Theorem C7_failures_of_setters_and_apply_filter (ref : NameOrId)
    (wm : World ModelScopedFilter.t) (wv : World ModelVersionScopedFilter.t)
    (q : Select) (f : AnyFilter) (cls : OnTableClass.TableClass)
    (calls : list ClientCall) :
  (forall e : ClientError,
     fst (ModelScopedFilter.set_scope_model ref wm) = Raised e <->
     UUID_of_str (str ref) = None /\ get_model ref = Raised e) /\
  (forall e : ClientError,
     fst (ModelVersionScopedFilter.set_scope_model ref wv) = Raised e <->
     UUID_of_str (str ref) = None /\ get_model ref = Raised e) /\
  (forall e : ClientError,
     fst (ModelVersionScopedFilter.set_scope_model_version ref wv) = Raised e
     <->
     UUID_of_str (str ref) = None /\
     get_model_version
       (ModelScopedFilter._model_id (ModelVersionScopedFilter.super (self wv)))
       ref = Raised e) /\
  (forall e : ClientError,
     fst (ModelScopedFilter.set_scope_model ref wm) = Raised e ->
     self (snd (ModelScopedFilter.set_scope_model ref wm)) = self wm) /\
  (forall e : ClientError,
     fst (ModelVersionScopedFilter.set_scope_model ref wv) = Raised e ->
     self (snd (ModelVersionScopedFilter.set_scope_model ref wv)) = self wv) /\
  (forall e : ClientError,
     fst (ModelVersionScopedFilter.set_scope_model_version ref wv) = Raised e ->
     self (snd (ModelVersionScopedFilter.set_scope_model_version ref wv))
       = self wv) /\
  OnTableClass.apply_filter f q cls =
    match OnTableClass.BaseFilter_apply_filter_on
            (OnTableClass.FILTER_EXCLUDE_FIELDS f) (OnTableClass.fields f)
            (base_of f) q cls with
    | Raised e => Raised (OnTableClass.BaseFilterRaised e)
    | Returned q0 =>
        match find (fun c => negb (OnTableClass.defines cls c))
                   (OnTableClass.columns_read f) with
        | Some c => Raised (OnTableClass.AttributeError c)
        | None =>
            Returned
              (fold_left where_
                 (OnTableClass.scope_criteria (OnTableClass.table cls) f) q0)
        end
    end /\
  apply_filter q (OnTableClass.table cls) {| self := f; lookups := calls |} =
    (Returned
       (fold_left where_
          (OnTableClass.scope_criteria (OnTableClass.table cls) f)
          (BaseFilter_apply_filter (base_of f) q (OnTableClass.table cls))),
     {| self := f; lookups := calls |}).
Proof.
  assert (Hon := apply_filter_on_table_class f q cls).
  unfold OnTableClass.BaseFilter_apply_filter in Hon.
  assert (Hrun : OnTableClass.apply_filter f q cls =
    match OnTableClass.BaseFilter_apply_filter_on
            (OnTableClass.FILTER_EXCLUDE_FIELDS f) (OnTableClass.fields f)
            (base_of f) q cls with
    | Raised e => Raised (OnTableClass.BaseFilterRaised e)
    | Returned q0 =>
        match find (fun c => negb (OnTableClass.defines cls c))
                   (OnTableClass.columns_read f) with
        | Some c => Raised (OnTableClass.AttributeError c)
        | None =>
            Returned
              (fold_left where_
                 (OnTableClass.scope_criteria (OnTableClass.table cls) f) q0)
        end
    end).
  { rewrite Hon.
    now destruct (OnTableClass.BaseFilter_apply_filter_on _ _ _ q cls). }
  clear Hon.
  assert (Hfirst := apply_filter_query f q (OnTableClass.table cls) calls).
  rewrite set_scope_model_run, inherited_set_scope_model_run,
    set_scope_model_version_run; simpl.
  destruct (UUID_of_str (str ref)) as [u|]; simpl.
  - repeat split; intros;
      try match goal with Hc : _ /\ _ |- _ => destruct Hc end;
      try discriminate; assumption.
  - destruct (get_model ref) as [m|em],
      (get_model_version
         (ModelScopedFilter._model_id
            (ModelVersionScopedFilter.super (self wv))) ref) as [v|ev];
      simpl; repeat split; intros;
      try match goal with Hc : _ /\ _ |- _ => destruct Hc end;
      try discriminate; try congruence; assumption.
Qed.

(** C8. Under a workspace scope [W], a [ShareableFilter] drops every row
    of another workspace, shared or not and whatever the user scope: the
    [is_shared] flag is read by the user-scope clause only. *)
Theorem C8_shared_row_of_other_workspace_is_excluded (b : BaseFilter)
    (W W' : UUID) (scope_user : option UUID) (q : Select) (t : Table)
    (r : Resource) :
  is_shared r = true ->
  workspace_id r = Some W' ->
  W' <> W ->
  exists q' : Select,
    query_of (ShareableFilter.apply_filter q t)
      {| ShareableFilter.super :=
           {| WorkspaceScopedFilter.base := b;
              WorkspaceScopedFilter.scope_workspace := Some W |};
         ShareableFilter.scope_user := scope_user |} = Some q' /\
    included r q' = false.
Proof.
  intros _ Hws Hne. unfold query_of.
  rewrite Shareable_apply_filter_run; simpl.
  assert (Hdrop : in_workspace_or_global r W = false).
  { unfold in_workspace_or_global. rewrite Hws. now apply N.eqb_neq. }
  destruct scope_user as [U|]; eexists; (split; [reflexivity|]).
  - rewrite !included_where, holds_workspace_clause, Hdrop.
    now rewrite andb_false_r.
  - rewrite included_where, holds_workspace_clause, Hdrop.
    now rewrite andb_false_r.
Qed.

Lemma existsb_app_last (P : string -> bool) (l : list string) (x : string) :
  P x = true -> existsb P (l ++ [x]) = true.
Proof.
  intros Hx. rewrite existsb_app; simpl. rewrite Hx. apply orb_true_r.
Qed.

Lemma existsb_app_left (P : string -> bool) (l l' : list string) :
  existsb P l = true -> existsb P (l ++ l') = true.
Proof. intros Hl. rewrite existsb_app, Hl. reflexivity. Qed.

(** Every scope field of an object is named in [FILTER_EXCLUDE_FIELDS] of
    its class: no scope field is left once the excluded ones are taken
    out. *)
Lemma scope_fields_all_excluded (f : AnyFilter) :
  filter
    (fun kv : string * option UUID =>
       negb (existsb (String.eqb (fst kv))
               (OnTableClass.FILTER_EXCLUDE_FIELDS f)))
    (OnTableClass.fields f) = [].
Proof.
  assert (Hu : forall l, existsb (String.eqb "scope_user")
                           (l ++ ["scope_user"]) = true).
  { intros l. now apply existsb_app_last. }
  assert (Hw : forall l, existsb (String.eqb "scope_workspace")
                           (l ++ ["scope_workspace"]) = true).
  { intros l. now apply existsb_app_last. }
  assert (Hw' : forall l x, existsb (String.eqb "scope_workspace")
                              ((l ++ ["scope_workspace"]) ++ [x]) = true).
  { intros l x. apply existsb_app_left, Hw. }
  destruct f as [f|f|f|f|f];
    unfold OnTableClass.FILTER_EXCLUDE_FIELDS, OnTableClass.fields,
      ModelVersionScopedFilter.FILTER_EXCLUDE_FIELDS,
      ModelScopedFilter.FILTER_EXCLUDE_FIELDS,
      ShareableFilter.FILTER_EXCLUDE_FIELDS,
      WorkspaceScopedFilter.FILTER_EXCLUDE_FIELDS,
      UserScopedFilter.FILTER_EXCLUDE_FIELDS;
    cbn [filter fst]; rewrite ?Hu, ?Hw, ?Hw'; reflexivity.
Qed.

(** C9. Each scope field is named in [FILTER_EXCLUDE_FIELDS] and in
    [CLI_EXCLUDE_FIELDS] of every class that has it: [scope_user] for
    [UserScopedFilter] and [ShareableFilter], [scope_workspace] for
    [WorkspaceScopedFilter] and the three classes that inherit from it.
    So, for a [BaseFilter.apply_filter] that leaves out the fields named in
    [FILTER_EXCLUDE_FIELDS] of the object's class, the scope fields never
    reach the generic processing: [BaseFilter.apply_filter] gives on the
    object what it gives on an object with no scope field at all, and the
    scopes come into the query through their own criteria only. *)
Theorem C9_scope_fields_are_excluded (f : AnyFilter) (q : Select)
    (cls : OnTableClass.TableClass) :
  (forall (excl : list string) (fields : Dict (option UUID)) (b : BaseFilter)
          (q0 : Select) (cls0 : OnTableClass.TableClass),
     OnTableClass.BaseFilter_apply_filter_on excl fields b q0 cls0 =
     OnTableClass.BaseFilter_apply_filter_on excl
       (filter (fun kv => negb (existsb (String.eqb (fst kv)) excl)) fields)
       b q0 cls0) ->
  ((In "scope_user" UserScopedFilter.FILTER_EXCLUDE_FIELDS /\
    In "scope_user" UserScopedFilter.CLI_EXCLUDE_FIELDS) /\
   (In "scope_workspace" WorkspaceScopedFilter.FILTER_EXCLUDE_FIELDS /\
    In "scope_workspace" WorkspaceScopedFilter.CLI_EXCLUDE_FIELDS) /\
   (In "scope_user" ShareableFilter.FILTER_EXCLUDE_FIELDS /\
    In "scope_user" ShareableFilter.CLI_EXCLUDE_FIELDS /\
    In "scope_workspace" ShareableFilter.FILTER_EXCLUDE_FIELDS /\
    In "scope_workspace" ShareableFilter.CLI_EXCLUDE_FIELDS) /\
   (In "scope_workspace" ModelScopedFilter.FILTER_EXCLUDE_FIELDS /\
    In "scope_workspace" ModelScopedFilter.CLI_EXCLUDE_FIELDS) /\
   (In "scope_workspace" ModelVersionScopedFilter.FILTER_EXCLUDE_FIELDS /\
    In "scope_workspace" ModelVersionScopedFilter.CLI_EXCLUDE_FIELDS)) /\
  OnTableClass.BaseFilter_apply_filter_on
    (OnTableClass.FILTER_EXCLUDE_FIELDS f) (OnTableClass.fields f)
    (base_of f) q cls
  = OnTableClass.BaseFilter_apply_filter_on
      (OnTableClass.FILTER_EXCLUDE_FIELDS f) [] (base_of f) q cls /\
  OnTableClass.apply_filter f q cls =
    match OnTableClass.BaseFilter_apply_filter_on
            (OnTableClass.FILTER_EXCLUDE_FIELDS f) [] (base_of f) q cls with
    | Raised e => Raised (OnTableClass.BaseFilterRaised e)
    | Returned q0 =>
        match find (fun c => negb (OnTableClass.defines cls c))
                   (OnTableClass.columns_read f) with
        | Some c => Raised (OnTableClass.AttributeError c)
        | None =>
            Returned
              (fold_left where_
                 (OnTableClass.scope_criteria (OnTableClass.table cls) f) q0)
        end
    end.
Proof.
  intros Hskip.
  assert (Hbase : OnTableClass.BaseFilter_apply_filter_on
                    (OnTableClass.FILTER_EXCLUDE_FIELDS f)
                    (OnTableClass.fields f) (base_of f) q cls
                  = OnTableClass.BaseFilter_apply_filter_on
                      (OnTableClass.FILTER_EXCLUDE_FIELDS f) []
                      (base_of f) q cls).
  { rewrite Hskip. now rewrite scope_fields_all_excluded. }
  split; [|split].
  - unfold ModelVersionScopedFilter.FILTER_EXCLUDE_FIELDS,
      ModelVersionScopedFilter.CLI_EXCLUDE_FIELDS,
      ModelScopedFilter.FILTER_EXCLUDE_FIELDS,
      ModelScopedFilter.CLI_EXCLUDE_FIELDS,
      ShareableFilter.FILTER_EXCLUDE_FIELDS,
      ShareableFilter.CLI_EXCLUDE_FIELDS,
      WorkspaceScopedFilter.FILTER_EXCLUDE_FIELDS,
      WorkspaceScopedFilter.CLI_EXCLUDE_FIELDS,
      UserScopedFilter.FILTER_EXCLUDE_FIELDS,
      UserScopedFilter.CLI_EXCLUDE_FIELDS.
    repeat split; rewrite ?in_app_iff; simpl; tauto.
  - exact Hbase.
  - rewrite apply_filter_on_table_class.
    unfold OnTableClass.BaseFilter_apply_filter. rewrite Hbase.
    now destruct (OnTableClass.BaseFilter_apply_filter_on _ [] _ q cls).
Qed.

(** C10. On a filter of any class, [apply_filter] returns a query and
    leaves the object, hence each of its scope attributes, as it was;
    called twice on the same query it returns the same query twice. *)
Theorem C10_apply_filter_reads_only (q : Select) (t : Table)
    (w : World AnyFilter) :
  exists q' : Select,
    apply_filter q t w = (Returned q', w) /\
    (q1 <- apply_filter q t ;; q2 <- apply_filter q t ;; ret (q1, q2)) w
      = (Returned (q', q'), w).
Proof.
  destruct (apply_filter_run q t w) as [cs Hrun].
  eexists. split; [exact Hrun|].
  unfold bind, ret. now rewrite !Hrun.
Qed.

End Claims.

(** ** Further properties of the scoped filters *)

Section ScopedFilters.
Context {uuid_lib : UUIDLib} {base_filter : BaseFilterClass} {client : Client}.

(** The model scope keeps, of the rows the same [ModelScopedFilter] keeps
    without it, exactly those whose [model_id] is the resolved identifier:
    unlike the workspace clause, the clause has no [IS NULL] alternative,
    and a row with no model is dropped. *)
Theorem model_scope_keeps_rows_of_model (p : WorkspaceScopedFilter.t)
    (m : UUID) (q : Select) (t : Table) (r : Resource) :
  exists q0 q' : Select,
    query_of (ModelScopedFilter.apply_filter q t)
      {| ModelScopedFilter.super := p; ModelScopedFilter._model_id := None |}
      = Some q0 /\
    query_of (ModelScopedFilter.apply_filter q t)
      {| ModelScopedFilter.super := p; ModelScopedFilter._model_id := Some m |}
      = Some q' /\
    included r q' =
      included r q0 &&
      match model_id r with
      | Some m' => N.eqb m' m
      | None => false
      end.
Proof.
  unfold query_of. rewrite !ModelScoped_apply_filter_run; simpl.
  do 2 eexists. split; [reflexivity|]. split; [reflexivity|].
  now rewrite included_where, holds_model_clause.
Qed.

(** The rows a [ModelVersionScopedFilter] returns, in every state of the
    object: those of the [BaseFilter] query that pass the workspace clause
    when [scope_workspace] is set, the model clause when [_model_id] is
    set, and, set or not, the model-version clause. *)
Theorem model_version_filter_rows (b : BaseFilter) (ws m v : option UUID)
    (q : Select) (t : Table) (r : Resource) :
  exists q' : Select,
    query_of (ModelVersionScopedFilter.apply_filter q t)
      {| ModelVersionScopedFilter.super :=
           {| ModelScopedFilter.super :=
                {| WorkspaceScopedFilter.base := b;
                   WorkspaceScopedFilter.scope_workspace := ws |};
              ModelScopedFilter._model_id := m |};
         ModelVersionScopedFilter._model_version_id := v |} = Some q' /\
    included r q' =
      included r (BaseFilter_apply_filter b q t)
      && match ws with
         | Some w => in_workspace_or_global r w
         | None => true
         end
      && match m with
         | Some m => of_model r m
         | None => true
         end
      && of_model_version r v.
Proof.
  unfold query_of. rewrite ModelVersionScoped_apply_filter_run; simpl.
  eexists. split; [reflexivity|].
  destruct ws, m; simpl;
    rewrite ?included_where, ?holds_workspace_clause, ?holds_model_clause,
      ?holds_model_version_clause, ?andb_true_r; reflexivity.
Qed.

(** A model and one of its versions given by name: the model is looked up
    first, the version is looked up under the identifier just found, and
    the query then built keeps the rows of that model and that version. *)
Theorem scope_by_names_then_apply_filter (mref vref : NameOrId) (m v : UUID)
    (w : World ModelVersionScopedFilter.t) (q : Select) (t : Table) :
  UUID_of_str (str mref) = None ->
  get_model mref = Returned m ->
  UUID_of_str (str vref) = None ->
  get_model_version (Some m) vref = Returned v ->
  exists (q' : Select) (w' : World ModelVersionScopedFilter.t),
    (_ <- ModelVersionScopedFilter.set_scope_model mref ;;
     _ <- ModelVersionScopedFilter.set_scope_model_version vref ;;
     ModelVersionScopedFilter.apply_filter q t) w = (Returned q', w') /\
    lookups w' =
      (lookups w ++ [get_model_call mref;
                     get_model_version_call (Some m) vref])%list /\
    ModelScopedFilter._model_id (ModelVersionScopedFilter.super (self w'))
      = Some m /\
    ModelVersionScopedFilter._model_version_id (self w') = Some v /\
    forall r : Resource,
      included r q' = true ->
      model_id r = Some m /\ model_version_id r = Some v.
Proof.
  intros Hm Hgm Hv Hgv. unfold bind.
  rewrite inherited_set_scope_model_run; simpl. rewrite Hm, Hgm.
  rewrite set_scope_model_version_run; simpl. rewrite Hv, Hgv.
  rewrite ModelVersionScoped_apply_filter_run; simpl.
  do 2 eexists. split; [reflexivity|]. simpl.
  split; [now rewrite <- app_assoc|]. split; [reflexivity|].
  split; [reflexivity|].
  intros r. rewrite !included_where, holds_model_clause,
    holds_model_version_clause.
  intros Hin. apply andb_true_iff in Hin as [Hin Hver].
  apply andb_true_iff in Hin as [_ Hmod].
  unfold of_model in Hmod. unfold of_model_version in Hver.
  destruct (model_id r) as [m'|]; [|discriminate].
  destruct (model_version_id r) as [v'|]; [|discriminate].
  apply N.eqb_eq in Hmod, Hver. now subst.
Qed.

(** When the look-up of the model raises, the sequence ends there: the
    error is the one of the look-up, the version is never looked up, no
    query is built and the filter is as it was. *)
Theorem failed_model_lookup_ends_the_sequence (mref vref : NameOrId)
    (e : ClientError) (w : World ModelVersionScopedFilter.t) (q : Select)
    (t : Table) :
  UUID_of_str (str mref) = None ->
  get_model mref = Raised e ->
  (_ <- ModelVersionScopedFilter.set_scope_model mref ;;
   _ <- ModelVersionScopedFilter.set_scope_model_version vref ;;
   ModelVersionScopedFilter.apply_filter q t) w =
  (Raised e,
   {| self := self w; lookups := lookups w ++ [get_model_call mref] |}).
Proof.
  intros Hm Hgm. unfold bind.
  rewrite inherited_set_scope_model_run; simpl. now rewrite Hm, Hgm.
Qed.

(** What the setters of a [ModelVersionScopedFilter] leave alone, whether
    they return or raise: [set_scope_model] keeps the model version and
    the workspace part, [set_scope_model_version] keeps the model and the
    workspace part, and [set_scope_workspace] returns without any look-up
    and keeps the model and the model version. In particular a model
    version resolved under one model stays when the model scope is set
    again. *)
Theorem setters_keep_the_other_scopes (ref : NameOrId) (W : UUID)
    (w : World ModelVersionScopedFilter.t) :
  (let w' := snd (ModelVersionScopedFilter.set_scope_model ref w) in
   ModelVersionScopedFilter._model_version_id (self w')
     = ModelVersionScopedFilter._model_version_id (self w) /\
   ModelScopedFilter.super (ModelVersionScopedFilter.super (self w'))
     = ModelScopedFilter.super (ModelVersionScopedFilter.super (self w))) /\
  (let w' := snd (ModelVersionScopedFilter.set_scope_model_version ref w) in
   ModelVersionScopedFilter.super (self w')
     = ModelVersionScopedFilter.super (self w)) /\
  (exists w' : World ModelVersionScopedFilter.t,
     ModelVersionScopedFilter.set_scope_workspace W w = (Returned tt, w') /\
     lookups w' = lookups w /\
     WorkspaceScopedFilter.scope_workspace
       (ModelScopedFilter.super (ModelVersionScopedFilter.super (self w')))
       = Some W /\
     WorkspaceScopedFilter.base
       (ModelScopedFilter.super (ModelVersionScopedFilter.super (self w')))
       = WorkspaceScopedFilter.base
           (ModelScopedFilter.super (ModelVersionScopedFilter.super (self w)))
     /\
     ModelScopedFilter._model_id (ModelVersionScopedFilter.super (self w'))
       = ModelScopedFilter._model_id (ModelVersionScopedFilter.super (self w))
     /\
     ModelVersionScopedFilter._model_version_id (self w')
       = ModelVersionScopedFilter._model_version_id (self w)).
Proof.
  split; [|split].
  - rewrite inherited_set_scope_model_run; simpl.
    destruct (UUID_of_str (str ref)); [now split|].
    destruct (get_model ref); now split.
  - rewrite set_scope_model_version_run; simpl.
    destruct (UUID_of_str (str ref)); [reflexivity|].
    now destruct (get_model_version _ ref).
  - destruct w as [[[[b ws] m] v] calls]. eexists.
    split; [reflexivity|]. simpl. repeat split.
Qed.

(** A setter that raises leaves the scope in force: the query built after
    the failed call is the query that would have been built before it. *)
Theorem failed_setter_keeps_the_query (ref : NameOrId) (e : ClientError)
    (w : World ModelVersionScopedFilter.t) (q : Select) (t : Table) :
  (fst (ModelVersionScopedFilter.set_scope_model ref w) = Raised e ->
   fst (ModelVersionScopedFilter.apply_filter q t
          (snd (ModelVersionScopedFilter.set_scope_model ref w)))
   = fst (ModelVersionScopedFilter.apply_filter q t w)) /\
  (fst (ModelVersionScopedFilter.set_scope_model_version ref w) = Raised e ->
   fst (ModelVersionScopedFilter.apply_filter q t
          (snd (ModelVersionScopedFilter.set_scope_model_version ref w)))
   = fst (ModelVersionScopedFilter.apply_filter q t w)).
Proof.
  rewrite inherited_set_scope_model_run, set_scope_model_version_run; simpl.
  rewrite !ModelVersionScoped_apply_filter_run.
  split.
  - destruct (UUID_of_str (str ref)); [discriminate|].
    destruct (get_model ref); [discriminate | reflexivity].
  - destruct (UUID_of_str (str ref)); [discriminate|].
    destruct (get_model_version _ ref); [discriminate | reflexivity].
Qed.

(** A model scope set twice: only the second reference counts. Once the
    first call has returned, the sequence ends as if the first call had
    not been made, with the same query or the same error. *)
Theorem last_model_scope_wins (ref1 ref2 : NameOrId)
    (w : World ModelScopedFilter.t) (q : Select) (t : Table) :
  fst (ModelScopedFilter.set_scope_model ref1 w) = Returned tt ->
  fst ((_ <- ModelScopedFilter.set_scope_model ref1 ;;
        _ <- ModelScopedFilter.set_scope_model ref2 ;;
        ModelScopedFilter.apply_filter q t) w)
  = fst ((_ <- ModelScopedFilter.set_scope_model ref2 ;;
          ModelScopedFilter.apply_filter q t) w).
Proof.
  unfold bind. rewrite !set_scope_model_run.
  destruct (UUID_of_str (str ref1)) as [u1|]; simpl.
  - intros _. rewrite set_scope_model_run; simpl.
    destruct (UUID_of_str (str ref2)) as [u2|].
    + now rewrite !ModelScoped_apply_filter_run.
    + destruct (get_model ref2); [|reflexivity].
      now rewrite !ModelScoped_apply_filter_run.
  - destruct (get_model ref1) as [m1|e1]; simpl; [|discriminate].
    intros _. rewrite set_scope_model_run; simpl.
    destruct (UUID_of_str (str ref2)) as [u2|].
    + now rewrite !ModelScoped_apply_filter_run.
    + destruct (get_model ref2); [|reflexivity].
      now rewrite !ModelScoped_apply_filter_run.
Qed.

(** On a [ShareableFilter] the two scopes may be set in either order: the
    object, the look-ups (none) and the query are the same, and the query
    keeps the rows of the [BaseFilter] query that are in the workspace or
    in none, and owned by the user or shared. *)
Theorem shareable_setters_commute (U W : UUID) (w : World ShareableFilter.t)
    (q : Select) (t : Table) :
  (_ <- ShareableFilter.set_scope_user U ;;
   _ <- ShareableFilter.set_scope_workspace W ;;
   ShareableFilter.apply_filter q t) w
  = (_ <- ShareableFilter.set_scope_workspace W ;;
     _ <- ShareableFilter.set_scope_user U ;;
     ShareableFilter.apply_filter q t) w /\
  exists q' : Select,
    fst ((_ <- ShareableFilter.set_scope_user U ;;
          _ <- ShareableFilter.set_scope_workspace W ;;
          ShareableFilter.apply_filter q t) w) = Returned q' /\
    forall r : Resource,
      included r q' =
        included r
          (BaseFilter_apply_filter
             (WorkspaceScopedFilter.base (ShareableFilter.super (self w)))
             q t)
        && in_workspace_or_global r W
        && (owned_by r U || is_shared r).
Proof.
  destruct w as [[[b ws] su] calls].
  unfold bind, ShareableFilter.set_scope_user,
    ShareableFilter.set_scope_workspace,
    WorkspaceScopedFilter.set_scope_workspace, super_call, modify; simpl.
  rewrite !Shareable_apply_filter_run; simpl.
  split; [reflexivity|].
  eexists. split; [reflexivity|].
  intros r.
  now rewrite !included_where, holds_workspace_clause,
    holds_owner_or_shared_clause.
Qed.

End ScopedFilters.

(** ** Dictionaries *)

Lemma getitem_setitem_same {V : Type} (d : Dict V) (k : string) (v : V) :
  getitem (setitem d k v) k = Some v.
Proof.
  induction d as [|[k' v'] d IH]; simpl.
  - now rewrite String.eqb_refl.
  - destruct (k' =? k) eqn:Hk; simpl; rewrite Hk; [reflexivity | exact IH].
Qed.

Lemma getitem_setitem_other {V : Type} (d : Dict V) (k k0 : string) (v : V) :
  k0 <> k -> getitem (setitem d k v) k0 = getitem d k0.
Proof.
  intros Hne. induction d as [|[k' v'] d IH]; simpl.
  - apply String.eqb_neq in Hne. rewrite String.eqb_sym in Hne.
    now rewrite Hne.
  - destruct (k' =? k) eqn:Hk; simpl.
    + apply String.eqb_eq in Hk; subst k'.
      apply String.eqb_neq in Hne. rewrite String.eqb_sym in Hne.
      now rewrite Hne.
    + now rewrite IH.
Qed.

(** ** The analytics metadata of the scoped models *)

Section AnalyticsMetadata.
Context {base_request : BaseRequestClass}
  {base_response : BaseResponseClass ShareableResponseBody.t}.

(** The metadata of a [ShareableRequest] reports the user, the workspace
    and the shared flag of the request under [user_id], [workspace_id] and
    [is_shared], whatever [BaseRequest] reported under these keys, and
    agrees with the metadata of [BaseRequest] on every other key. *)
Theorem shareable_request_metadata (self : ShareableRequest.t) :
  let w := ShareableRequest.super self in
  let u := WorkspaceScopedRequest.super w in
  let metadata := ShareableRequest.get_analytics_metadata self in
  getitem metadata "user_id" = Some (AnyUuid (UserScopedRequest.user u)) /\
  getitem metadata "workspace_id"
    = Some (AnyUuid (WorkspaceScopedRequest.workspace w)) /\
  getitem metadata "is_shared"
    = Some (AnyBool (ShareableRequest.is_shared self)) /\
  forall k : string,
    k <> "user_id" -> k <> "workspace_id" -> k <> "is_shared" ->
    getitem metadata k
    = getitem (BaseRequest_get_analytics_metadata (UserScopedRequest.base u)) k.
Proof.
  intros w u metadata. subst metadata.
  unfold ShareableRequest.get_analytics_metadata,
    WorkspaceScopedRequest.get_analytics_metadata,
    UserScopedRequest.get_analytics_metadata; simpl. fold w. fold u.
  repeat split.
  - rewrite !getitem_setitem_other by discriminate.
    apply getitem_setitem_same.
  - rewrite getitem_setitem_other by discriminate.
    apply getitem_setitem_same.
  - apply getitem_setitem_same.
  - intros k H1 H2 H3. now rewrite !getitem_setitem_other.
Qed.

(** The metadata of a [ShareableResponse]: when [get_body] raises, so does
    [get_analytics_metadata]; otherwise [is_shared] is the flag of the
    body, [user_id] is the identifier of the body's user, or what
    [BaseResponse] reported when the user is [None], and every other key,
    [workspace_id] among them, is as [BaseResponse] reported it. *)
Theorem shareable_response_metadata (self : BaseResponse) :
  match get_body self with
  | Raised e => ShareableResponse.get_analytics_metadata self = Raised e
  | Returned body =>
      exists metadata : Dict Any,
        ShareableResponse.get_analytics_metadata self = Returned metadata /\
        getitem metadata "is_shared"
          = Some (AnyBool (ShareableResponseBody.is_shared body)) /\
        getitem metadata "user_id"
          = match UserScopedResponseBody.user
                    (ShareableResponseBody.super body) with
            | Some u => Some (AnyUuid (UserResponse.id u))
            | None =>
                getitem (BaseResponse_get_analytics_metadata self) "user_id"
            end /\
        forall k : string,
          k <> "user_id" -> k <> "is_shared" ->
          getitem metadata k
          = getitem (BaseResponse_get_analytics_metadata self) k
  end.
Proof.
  unfold ShareableResponse.get_analytics_metadata,
    ShareableResponse.is_shared, UserScopedResponse.get_analytics_metadata,
    UserScopedResponse.user.
  destruct (get_body self) as [body|e]; simpl; [|reflexivity].
  destruct (UserScopedResponseBody.user (ShareableResponseBody.super body))
    as [u|]; simpl; eexists; (split; [reflexivity|]); repeat split.
  - apply getitem_setitem_same.
  - rewrite getitem_setitem_other by discriminate.
    apply getitem_setitem_same.
  - intros k H1 H2. now rewrite !getitem_setitem_other.
  - apply getitem_setitem_same.
  - now rewrite getitem_setitem_other by discriminate.
  - intros k H1 H2. now rewrite getitem_setitem_other.
Qed.

End AnalyticsMetadata.

(** ** The ClearML orchestrator *)

Section OrchestratorRuns.
Import ClearMLOrchestrator.
Context {uuid_lib : UUIDLib} {types : PlatformTypes} {platform : Platform}.

(** Splits a conjunction into its parts. *)
Ltac conjs := repeat match goal with |- _ /\ _ => split end.

Lemma containers_app (xs ys : list Event) :
  containers (xs ++ ys) = (containers xs ++ containers ys)%list.
Proof.
  induction xs as [|[m|m|kw|i] xs IH]; simpl; now rewrite ?IH.
Qed.

Lemma fetched_app (xs ys : list Event) :
  fetched (xs ++ ys) = (fetched xs ++ fetched ys)%list.
Proof.
  induction xs as [|[m|m|kw|i] xs IH]; simpl; now rewrite ?IH.
Qed.

(** The log of a container is written to the logger, line by line. *)
Lemma for_each_log_line (logs : list string) (events : list Event) :
  for_each logs (fun line => emit (logger_info (strip_decode line))) events
  = (Returned tt,
     (events ++ map (fun line => logger_info (strip_decode line)) logs)%list).
Proof.
  revert events. induction logs as [|l logs IH]; intros events; simpl.
  - unfold pure. now rewrite app_nil_r.
  - unfold seq, emit. rewrite IH. now rewrite <- app_assoc.
Qed.

Lemma containers_log_lines (logs : list string) :
  containers (map (fun line => logger_info (strip_decode line)) logs) = []
  /\ fetched (map (fun line => logger_info (strip_decode line)) logs) = [].
Proof. induction logs as [|l logs [IH1 IH2]]; simpl; auto. Qed.

(** One turn of the loop: it adds events, starts at most one container,
    which is the one of the step, and when it returns it has started it. *)
Lemma run_step_events (d : Deployment) (ep : list string)
    (vol : Dict (Dict string)) (env : Dict string) (item : string * Step)
    (events : list Event) :
  exists new : list Event,
    snd (run_step d ep vol env item events) = (events ++ new)%list /\
    fetched new = [] /\
    ((fst (run_step d ep vol env item events) = Returned tt /\
      exists kw, containers new = [kw] /\ runs_step d ep vol env kw item
                 /\ completed kw)
     \/
     (exists e, fst (run_step d ep vol env item events) = Raised e) /\
     (containers new = [] \/
      exists kw, containers new = [kw] /\ runs_step d ep vol env kw item)).
Proof.
  destruct item as [step_name step]. unfold run_step.
  set (warn := logger_warning _).
  set (info := logger_info _).
  assert (Hpre : exists pre : list Event,
            when (requires_resources_in_orchestration_environment step)
              (emit warn) events = (Returned tt, (events ++ pre)%list)
            /\ containers pre = [] /\ fetched pre = []).
  { destruct (requires_resources_in_orchestration_environment step); simpl.
    - exists [warn]. now unfold emit.
    - exists []. unfold pure. now rewrite app_nil_r. }
  destruct Hpre as [pre [Hpre [Hc Hf]]].
  match goal with
  | |- context [snd (?m events)] => remember (m events) as res eqn:Hrun
  end.
  unfold seq in Hrun. rewrite Hpre in Hrun.
  unfold call, emit, docker_client_containers_run, seq, raise_, call, emit
    in Hrun.
  cbn [extra] in Hrun.
  destruct (get_image d step_name) as [img|e] eqn:Himg.
  - destruct (existsb (contains (run_args step)) explicit_keywords) eqn:Hkw.
    + subst res; simpl. exists (pre ++ [info])%list.
      rewrite app_assoc, containers_app, fetched_app, Hc, Hf.
      split; [reflexivity|]. split; [reflexivity|].
      right. split; [now eexists | now left].
    + match type of Hrun with
      | context [containers_run ?k] => set (kw := k) in Hrun
      end.
      assert (Hkw' : runs_step d ep vol env kw (step_name, step)).
      { unfold runs_step, kw.
        cbn [fst snd command image extra entrypoint volumes environment
             stream user extra_hosts].
        repeat split; assumption. }
      destruct (containers_run kw) as [logs|e] eqn:Hlogs.
      * rewrite for_each_log_line in Hrun. subst res; simpl.
        exists (pre ++ [info] ++ [container_started kw]
                  ++ map (fun line => logger_info (strip_decode line)) logs)
               %list.
        rewrite !containers_app, !fetched_app, Hc, Hf.
        destruct (containers_log_lines logs) as [Hlc Hlf].
        rewrite Hlc, Hlf; simpl.
        split; [now rewrite <- !app_assoc|]. split; [reflexivity|].
        left. split; [reflexivity|]. exists kw.
        split; [reflexivity|]. split; [exact Hkw'|]. now exists logs.
      * subst res; simpl.
        exists (pre ++ [info] ++ [container_started kw])%list.
        rewrite !containers_app, !fetched_app, Hc, Hf; simpl.
        split; [now rewrite <- !app_assoc|]. split; [reflexivity|].
        right. split; [now eexists|]. right. now exists kw.
  - subst res; simpl. exists pre. split; [reflexivity|]. split; [exact Hf|].
    right. split; [now eexists | now left].
Qed.

Lemma removelast_completed (kw : RunKwargs) (cs : list RunKwargs) :
  completed kw -> Forall completed (removelast cs) ->
  Forall completed (removelast (kw :: cs)).
Proof.
  intros Hkw Hcs. destruct cs as [|c cs]; [constructor|].
  change (removelast (kw :: c :: cs)) with (kw :: removelast (c :: cs)).
  now constructor.
Qed.

(** The loop: the containers started are those of the steps, in order, up
    to the step at which the loop ends; every container but the last has
    returned its log; when the loop returns, every step has a container
    and every container has returned. *)
Lemma steps_events (d : Deployment) (ep : list string)
    (vol : Dict (Dict string)) (env : Dict string) (steps : Dict Step)
    (events : list Event) :
  exists (new : list Event) (done rest : Dict Step),
    snd (for_each steps (run_step d ep vol env) events) = (events ++ new)%list
    /\ fetched new = []
    /\ steps = (done ++ rest)%list
    /\ Forall2 (runs_step d ep vol env) (containers new) done
    /\ Forall completed (removelast (containers new))
    /\ (fst (for_each steps (run_step d ep vol env) events) = Returned tt
        -> rest = [] /\ Forall completed (containers new)).
Proof.
  revert events. induction steps as [|item steps IH]; intros events; simpl.
  - exists [], [], []. unfold pure; simpl. rewrite app_nil_r.
    conjs; auto.
  - destruct (run_step_events d ep vol env item events)
      as [new1 [Hsnd [Hf1 Hcase]]].
    unfold seq.
    destruct (run_step d ep vol env item events) as [o events1] eqn:Hrun.
    simpl in Hsnd, Hcase. subst events1.
    destruct Hcase as [[Ho [kw [Hc [Hkw Hdone]]]] | [[e He] Hc]]; subst o.
    + destruct (IH (events ++ new1)%list)
        as [new2 [done [rest [Hsnd2 [Hf2 [Hsplit [Hall [Hlast Hret]]]]]]]].
      exists (new1 ++ new2)%list, (item :: done), rest.
      rewrite Hsnd2, app_assoc, fetched_app, Hf1, Hf2, containers_app, Hc.
      subst steps. simpl. conjs; auto.
      * now apply removelast_completed.
      * intros Hok. destruct (Hret Hok) as [Hrest Hcs]. auto.
    + simpl. destruct Hc as [Hc | [kw [Hc Hkw]]].
      * exists new1, [], (item :: steps). rewrite Hc.
        conjs; auto. discriminate.
      * exists new1, [item], steps. rewrite Hc.
        conjs; auto. discriminate.
Qed.

Lemma for_each_ext {A : Type} (xs : list A) (f g : A -> Run unit) :
  (forall x events, f x events = g x events) ->
  forall events, for_each xs f events = for_each xs g events.
Proof.
  intros Hfg. induction xs as [|x xs IH]; intros events; simpl.
  - reflexivity.
  - unfold seq. rewrite Hfg. destruct (g x events) as [[[]|e] events'].
    + apply IH.
    + reflexivity.
Qed.

Lemma Forall2_In_left {A B : Type} (R : A -> B -> Prop) (xs : list A)
    (ys : list B) (x : A) :
  Forall2 R xs ys -> In x xs -> exists y, In y ys /\ R x y.
Proof.
  induction 1 as [|x' y' xs ys HR _ IH]; intros Hin; [easy|].
  destruct Hin as [-> | Hin].
  - exists y'. split; [now left | exact HR].
  - destruct (IH Hin) as [y [Hy HRy]]. exists y. split; [now right | exact HRy].
Qed.

Lemma Forall2_In_right {A B : Type} (R : A -> B -> Prop) (xs : list A)
    (ys : list B) (y : B) :
  Forall2 R xs ys -> In y ys -> exists x, In x xs /\ R x y.
Proof.
  induction 1 as [|x' y' xs ys HR _ IH]; intros Hin; [easy|].
  destruct Hin as [-> | Hin].
  - exists x'. split; [now left | exact HR].
  - destruct (IH Hin) as [x [Hx HRx]]. exists x. split; [now right | exact HRx].
Qed.

(** The whole run: before the loop nothing is started, after it the run is
    looked up once, under the identifier derived from the run id. *)
Lemma pipeline_events (d : Deployment) (stack : Stack) (events : list Event) :
  let ep := get_entrypoint_command in
  let vol :=
    setitem [] local_stores_path
      (setitem (setitem [] "bind" local_stores_path) "mode" "rw") in
  let env :=
    setitem
      (setitem [] ENV_ZENML_DOCKER_ORCHESTRATOR_RUN_ID (str_of_UUID uuid4))
      ENV_ZENML_LOCAL_STORES_PATH local_stores_path in
  let rid := get_run_id_for_orchestrator_run_id (str_of_UUID uuid4) in
  exists (new : list Event) (done rest : Dict Step),
    snd (prepare_or_run_pipeline d stack events) = (events ++ new)%list
    /\ step_configurations d = (done ++ rest)%list
    /\ Forall2 (runs_step d ep vol env) (containers new) done
    /\ Forall completed (removelast (containers new))
    /\ (fetched new = [] \/ fetched new = [rid])
    /\ (fst (prepare_or_run_pipeline d stack events) = Returned tt ->
        rest = [] /\ Forall completed (containers new) /\ fetched new = [rid]).
Proof.
  intros ep vol env rid. unfold prepare_or_run_pipeline.
  set (warn := logger_warning _).
  assert (Hpre : exists pre : list Event,
            when (match schedule d with Some _ => true | None => false end)
              (emit warn) events = (Returned tt, (events ++ pre)%list)
            /\ containers pre = [] /\ fetched pre = []).
  { destruct (schedule d); simpl.
    - exists [warn]. now unfold emit.
    - exists []. unfold pure. now rewrite app_nil_r. }
  destruct Hpre as [pre [Hpre [Hc Hf]]].
  match goal with
  | |- context [snd (?m events)] => remember (m events) as res eqn:Hrun
  end.
  unfold seq in Hrun. rewrite Hpre in Hrun. unfold call in Hrun.
  assert (Hstop : forall e : Exception,
            res = (Raised e, (events ++ pre)%list) ->
            exists (new : list Event) (done rest : Dict Step),
              snd res = (events ++ new)%list
              /\ step_configurations d = (done ++ rest)%list
              /\ Forall2 (runs_step d ep vol env) (containers new) done
              /\ Forall completed (removelast (containers new))
              /\ (fetched new = [] \/ fetched new = [rid])
              /\ (fst res = Returned tt ->
                  rest = [] /\ Forall completed (containers new)
                  /\ fetched new = [rid])).
  { intros e ->. exists pre, [], (step_configurations d). rewrite Hc, Hf.
    simpl. conjs; auto. discriminate. }
  destruct DockerClient_from_env as [[]|e]; [|now apply (Hstop _ Hrun)].
  destruct (check_local_paths stack) as [[]|e]; [|now apply (Hstop _ Hrun)].
  clear Hstop. cbv beta iota zeta in Hrun.
  change (str (Uuid uuid4)) with (str_of_UUID uuid4) in Hrun.
  fold ep vol env rid in Hrun.
  destruct (steps_events d ep vol env (step_configurations d)
              (events ++ pre)%list)
    as [new [done [rest [Hsnd [Hfn [Hsplit [Hall [Hlast Hret]]]]]]]].
  destruct (for_each (step_configurations d) (run_step d ep vol env)
              (events ++ pre)%list) as [[[]|e] events1].
  - simpl in Hsnd, Hret. subst events1.
    destruct (Hret eq_refl) as [Hrest Hcs].
    unfold emit in Hrun.
    destruct (get_run_name rid) as [name|e].
    + subst res; cbn [fst snd].
      eexists (pre ++ new ++ [run_fetched rid] ++ [logger_info _])%list.
      exists done, rest.
      rewrite !containers_app, !fetched_app, Hc, Hf, Hfn; simpl.
      rewrite !app_nil_r. conjs; auto.
      now rewrite <- !app_assoc.
    + subst res; cbn [fst snd].
      exists (pre ++ new ++ [run_fetched rid])%list, done, rest.
      rewrite !containers_app, !fetched_app, Hc, Hf, Hfn; simpl.
      rewrite !app_nil_r.
      conjs; auto; try discriminate; now rewrite <- !app_assoc.
  - simpl in Hsnd. subst events1 res; cbn [fst snd].
    exists (pre ++ new)%list, done, rest.
    rewrite !containers_app, !fetched_app, Hc, Hf, Hfn; simpl.
    conjs; auto; try discriminate; now rewrite <- !app_assoc.
Qed.

(** The steps run one after the other, in the order of the deployment:
    the containers started are, position by position, those of a leading
    part of [step_configurations]; a container is started only after the
    one before it has returned its log; and when [prepare_or_run_pipeline]
    returns, every step has had its container and every container has
    returned. *)
Theorem steps_run_in_order_until_one_fails (d : Deployment) (stack : Stack) :
  let ep := get_entrypoint_command in
  let vol :=
    setitem [] local_stores_path
      (setitem (setitem [] "bind" local_stores_path) "mode" "rw") in
  let env :=
    setitem
      (setitem [] ENV_ZENML_DOCKER_ORCHESTRATOR_RUN_ID (str_of_UUID uuid4))
      ENV_ZENML_LOCAL_STORES_PATH local_stores_path in
  let started := containers (snd (prepare_or_run_pipeline d stack [])) in
  exists done rest : Dict Step,
    step_configurations d = (done ++ rest)%list /\
    Forall2 (runs_step d ep vol env) started done /\
    Forall completed (removelast started) /\
    (fst (prepare_or_run_pipeline d stack []) = Returned tt ->
     rest = [] /\ Forall completed started).
Proof.
  intros ep vol env started.
  destruct (pipeline_events d stack [])
    as [new [done [rest [Hsnd [Hsplit [Hall [Hlast [_ Hret]]]]]]]].
  simpl in Hsnd. subst started. rewrite Hsnd.
  exists done, rest. conjs; auto.
  intros Hok. destruct (Hret Hok) as [Hrest [Hcs _]]. auto.
Qed.

(** Every container is started with the environment built before the
    loop, which holds the orchestrator run id under
    [ENV_ZENML_DOCKER_ORCHESTRATOR_RUN_ID] and the local stores path. When
    the two environment variable names differ,
    [get_orchestrator_run_id] on the environment of any container started
    returns the run id that was put there, and the run looked up at the
    end, if any, is the one derived from that same run id. How the id is
    drawn is left to the platform: [uuid4] is a value here. *)
Theorem containers_read_back_the_run_id (d : Deployment) (stack : Stack) :
  ENV_ZENML_LOCAL_STORES_PATH <> ENV_ZENML_DOCKER_ORCHESTRATOR_RUN_ID ->
  let events := snd (prepare_or_run_pipeline d stack []) in
  let orchestrator_run_id := str_of_UUID uuid4 in
  (forall kw : RunKwargs,
     In kw (containers events) ->
     environment kw
     = setitem
         (setitem [] ENV_ZENML_DOCKER_ORCHESTRATOR_RUN_ID orchestrator_run_id)
         ENV_ZENML_LOCAL_STORES_PATH local_stores_path
     /\ get_orchestrator_run_id (environment kw) = Returned orchestrator_run_id
     /\ getitem (environment kw) ENV_ZENML_LOCAL_STORES_PATH
        = Some local_stores_path) /\
  (fetched events = [] \/
   fetched events = [get_run_id_for_orchestrator_run_id orchestrator_run_id])
  /\
  (fst (prepare_or_run_pipeline d stack []) = Returned tt ->
   fetched events = [get_run_id_for_orchestrator_run_id orchestrator_run_id]).
Proof.
  intros Hne events orchestrator_run_id.
  destruct (pipeline_events d stack [])
    as [new [done [rest [Hsnd [Hsplit [Hall [Hlast [Hfetch Hret]]]]]]]].
  simpl in Hsnd. subst events. rewrite Hsnd. conjs.
  - intros kw Hin.
    destruct (Forall2_In_left _ _ _ _ Hall Hin) as [item [_ Hkw]].
    destruct Hkw as [_ [_ [_ [_ [_ [_ [Henv _]]]]]]]. rewrite Henv.
    split; [reflexivity|].
    unfold get_orchestrator_run_id.
    rewrite getitem_setitem_other by (intros Heq; now apply Hne).
    now rewrite !getitem_setitem_same.
  - exact Hfetch.
  - intros Hok. now destruct (Hret Hok) as [_ [_ Hf]].
Qed.

(** A schedule is ignored: the run of a deployment with a schedule is the
    run of the same deployment without it, after one more warning, as long
    as the image of a step does not depend on the schedule. *)
Theorem schedule_only_adds_a_warning (d : Deployment) (stack : Stack)
    (events : list Event) :
  let unscheduled :=
    {| id := id d; schedule := None;
       step_configurations := step_configurations d |} in
  (forall step_name : string,
     get_image d step_name = get_image unscheduled step_name) ->
  exists warning : string,
    prepare_or_run_pipeline d stack events =
    prepare_or_run_pipeline unscheduled stack
      (match schedule d with
       | Some _ => events ++ [logger_warning warning]
       | None => events
       end)%list.
Proof.
  intros unscheduled Himg. eexists.
  assert (Hstep : forall ep vol env item evs,
            run_step d ep vol env item evs
            = run_step unscheduled ep vol env item evs).
  { intros ep vol env [step_name step] evs. unfold run_step.
    now rewrite Himg. }
  unfold prepare_or_run_pipeline.
  match goal with
  | |- seq _ ?k _ = seq _ ?k' _ =>
      assert (HK : forall ev, k tt ev = k' tt ev)
  end.
  { intros ev. cbv beta. unfold seq.
    destruct (call DockerClient_from_env ev) as [[[]|e] ev1]; [|reflexivity].
    destruct (call (check_local_paths stack) ev1) as [[[]|e] ev2];
      [|reflexivity].
    cbv zeta.
    change (step_configurations unscheduled) with (step_configurations d).
    now rewrite (for_each_ext _ _ _ (Hstep _ _ _)). }
  destruct (schedule d); exact (HK _).
Qed.

(** The run arguments of a step are passed next to the keyword arguments
    the orchestrator sets itself: when the [run_args] of some step name
    one of those ([image], [entrypoint], [command], [user], [volumes],
    [environment], [stream], [extra_hosts]), the pipeline does not run to
    its end. *)
Theorem keyword_clash_fails_the_pipeline (d : Deployment) (stack : Stack)
    (item : string * Step) :
  In item (step_configurations d) ->
  existsb (contains (run_args (snd item))) explicit_keywords = true ->
  exists e : Exception,
    fst (prepare_or_run_pipeline d stack []) = Raised e.
Proof.
  intros Hin Hclash.
  destruct (pipeline_events d stack [])
    as [new [done [rest [Hsnd [Hsplit [Hall [_ [_ Hret]]]]]]]].
  destruct (fst (prepare_or_run_pipeline d stack [])) as [[]|e];
    [|now exists e].
  destruct (Hret eq_refl) as [Hrest _]. subst rest.
  rewrite app_nil_r in Hsplit. rewrite Hsplit in Hin.
  destruct (Forall2_In_right _ _ _ _ Hall Hin) as [kw [_ Hkw]].
  destruct Hkw as [_ [_ [_ [Hno _]]]]. congruence.
Qed.

End OrchestratorRuns.

(** ** The claims on the concrete setting *)

Import Fixture.

(** [BaseFilter.apply_filter] of the concrete setting only adds criteria. *)
Lemma column_filters_only_narrow (b : list ColumnElement) (q0 : Select)
    (t0 : Table) (r0 : Resource) :
  included r0 (fold_left where_ b q0) = true -> included r0 q0 = true.
Proof.
  rewrite included_fold_where. intros Hin.
  now apply andb_true_iff in Hin.
Qed.

(** C1, as stated, fails: on a filter with no model scope, a reference
    that is a UUID string is accepted. *)
Lemma C1_counterexample_uuid_reference_is_accepted :
  ModelScopedFilter._model_id
    (ModelVersionScopedFilter.super model_version_scoped) = None /\
  ~ (forall ref : NameOrId,
       exists e : DirectoryError,
         fst (ModelVersionScopedFilter.set_scope_model_version ref
                (fresh model_version_scoped)) = Raised e).
Proof.
  split; [reflexivity|].
  intros Hall. destruct (Hall (Str some_uuid)) as [e He].
  vm_compute in He. discriminate He.
Qed.

Lemma C1_witness_name_without_model_scope :
  ModelScopedFilter._model_id
    (ModelVersionScopedFilter.super (self (fresh model_version_scoped)))
    = None /\
  ModelVersionScopedFilter.set_scope_model_version (Str "v1")
    (fresh model_version_scoped) =
  (Raised NotFound,
   {| self := model_version_scoped;
      lookups := [get_model_version_call None (Str "v1")] |}).
Proof.
  split; [reflexivity|].
  exact (C1_set_scope_model_version_without_model_scope
           (Str "v1") (fresh model_version_scoped) eq_refl).
Defined.

(** The failing input of C2 in the concrete setting: a row linked to a
    model version is returned by [select], and the filter nobody has
    scoped drops it. *)
Example unscoped_model_version_filter_drops_row :
  let r := row user_1 false (Some workspace_1) in
  included r select = true /\
  exists q' : Select,
    query_of (apply_filter select table)
      (OfModelVersionScoped model_version_scoped) = Some q' /\
    included r q' = false.
Proof. simpl. split; [reflexivity|]. eexists. split; reflexivity. Qed.

Lemma C4_witness_other_workspace :
  exists q' : Select,
    query_of (apply_filter select table)
      (OfModelScoped
         {| ModelScopedFilter.super :=
              {| WorkspaceScopedFilter.base := [];
                 WorkspaceScopedFilter.scope_workspace := Some workspace_1 |};
            ModelScopedFilter._model_id := Some model_a |}) = Some q' /\
    included (row user_1 false (Some workspace_2)) q' = false.
Proof.
  apply (proj2 (C4_workspace_scope_or_global (base_filter := column_filters)
                  [] workspace_1 select table
                  (row user_1 false (Some workspace_2)))
           _ workspace_2);
    [reflexivity | reflexivity | discriminate].
Defined.

Lemma C5_witness_shareable :
  exists q' : Select,
    fst (apply_filter select table
           (fresh (OfShareable
              {| ShareableFilter.super := workspace_scoped;
                 ShareableFilter.scope_user := Some user_1 |})))
      = Returned q' /\
    (included (row user_1 false None) q' = true ->
     included (row user_1 false None) select = true).
Proof.
  destruct (C5_apply_filter_only_narrows
              (OfShareable
                 {| ShareableFilter.super := workspace_scoped;
                    ShareableFilter.scope_user := Some user_1 |})
              select table [] (row user_1 false None)
              column_filters_only_narrow)
    as [[q' [cs [Hq [_ Hin]]]] _].
  exists q'. split; [exact Hq|].
  intros Hq'. now apply Hin.
Defined.

Lemma C6_witness_uuid_string :
  UUID_of_str (str (Str some_uuid)) = Some 0x12345678123456781234567812345678%N
  /\
  ModelVersionScopedFilter.set_scope_model_version (Str some_uuid)
    (fresh model_version_scoped) =
  (Returned tt,
   {| self :=
        {| ModelVersionScopedFilter.super := model_scoped;
           ModelVersionScopedFilter._model_version_id :=
             Some 0x12345678123456781234567812345678%N |};
      lookups := [] |}).
Proof.
  split; [reflexivity|].
  exact (proj1 (proj2 (proj2
    (C6_uuid_reference_stored_without_lookup
       (Str some_uuid) 0x12345678123456781234567812345678%N
       (fresh model_scoped) (fresh model_version_scoped) eq_refl)))).
Defined.

(** C7, as stated, fails: on a schema class that does not define
    [user_id], [apply_filter] of a user-scoped filter raises
    [AttributeError]. *)
Lemma C7_counterexample_table_without_column :
  OnTableClass.apply_filter
    (OfUserScoped
       {| UserScopedFilter.base := [];
          UserScopedFilter.scope_user := Some user_1 |})
    select base_schema
  = Raised (OnTableClass.AttributeError "user_id").
Proof. reflexivity. Qed.

Lemma C7_witness_ambiguous_name :
  fst (ModelVersionScopedFilter.set_scope_model (Str "twin")
         (fresh model_version_scoped)) = Raised Ambiguous /\
  self (snd (ModelVersionScopedFilter.set_scope_model (Str "twin")
               (fresh model_version_scoped))) = model_version_scoped /\
  OnTableClass.apply_filter (OfModelVersionScoped model_version_scoped)
    select base_schema
  = Raised (OnTableClass.AttributeError "model_version_id").
Proof.
  destruct (C7_failures_of_setters_and_apply_filter
              (uuid_lib := py_uuid) (client := directory)
              (raising := generic_filters) (Str "twin")
              (fresh model_scoped) (fresh model_version_scoped)
              select (OfModelVersionScoped model_version_scoped)
              base_schema [])
    as [_ [Hraise [_ [_ [Hkeep [_ [Hon _]]]]]]].
  assert (Hr : fst (ModelVersionScopedFilter.set_scope_model (Str "twin")
                      (fresh model_version_scoped)) = Raised Ambiguous).
  { apply Hraise. split; reflexivity. }
  split; [exact Hr|]. split; [exact (Hkeep Ambiguous Hr) | exact Hon].
Defined.

Lemma C8_witness_shared_row :
  (is_shared (row user_2 true (Some workspace_2)) = true /\
   workspace_id (row user_2 true (Some workspace_2)) = Some workspace_2 /\
   workspace_2 <> workspace_1) /\
  exists q' : Select,
    query_of (ShareableFilter.apply_filter select table)
      {| ShareableFilter.super :=
           {| WorkspaceScopedFilter.base := [];
              WorkspaceScopedFilter.scope_workspace := Some workspace_1 |};
         ShareableFilter.scope_user := Some user_1 |} = Some q' /\
    included (row user_2 true (Some workspace_2)) q' = false.
Proof.
  split.
  - repeat split; discriminate.
  - apply (C8_shared_row_of_other_workspace_is_excluded
             (base_filter := column_filters)
             [] workspace_1 workspace_2 (Some user_1) select table
             (row user_2 true (Some workspace_2)));
      [reflexivity | reflexivity | discriminate].
Defined.

(** The scenarios of the specification. *)

(** User scope on a shareable kind: the owner's row and the shared row of
    another user are visible, the other user's private row is not. *)
Example scenario_user_scope_on_shareable :
  let rows := [row user_1 false None; row user_2 true None;
               row user_2 false None] in
  exists q' : Select,
    query_of (ShareableFilter.apply_filter select table)
      {| ShareableFilter.super := workspace_scoped;
         ShareableFilter.scope_user := Some user_1 |} = Some q' /\
    filter (fun r => included r q') rows
      = [row user_1 false None; row user_2 true None].
Proof. simpl. eexists. split; reflexivity. Qed.

(** Workspace scope: the rows of the workspace and the rows of no
    workspace are visible. *)
Example scenario_workspace_scope :
  let rows := [row user_1 false (Some workspace_1);
               row user_1 false (Some workspace_2);
               row user_1 false None] in
  exists q' : Select,
    query_of (WorkspaceScopedFilter.apply_filter select table)
      {| WorkspaceScopedFilter.base := [];
         WorkspaceScopedFilter.scope_workspace := Some workspace_1 |}
      = Some q' /\
    filter (fun r => included r q') rows
      = [row user_1 false (Some workspace_1); row user_1 false None].
Proof. simpl. eexists. split; reflexivity. Qed.

(** A name two models share: the error of the directory is raised by the
    setter, after one look-up, and the filter is as it was. *)
Example scenario_ambiguous_model_name :
  ModelScopedFilter.set_scope_model (Str "twin") (fresh model_scoped)
  = (Raised Ambiguous,
     {| self := model_scoped; lookups := [get_model_call (Str "twin")] |}).
Proof. reflexivity. Qed.

(** A model, then one of its versions, both by name. *)
Example scenario_model_then_version :
  (_ <- ModelVersionScopedFilter.set_scope_model (Str "my-model") ;;
   ModelVersionScopedFilter.set_scope_model_version (Str "v1"))
    (fresh model_version_scoped)
  = (Returned tt,
     {| self :=
          {| ModelVersionScopedFilter.super :=
               {| ModelScopedFilter.super := workspace_scoped;
                  ModelScopedFilter._model_id := Some model_a |};
             ModelVersionScopedFilter._model_version_id := Some version_a1 |};
        lookups := [get_model_call (Str "my-model");
                    get_model_version_call (Some model_a) (Str "v1")] |}).
Proof. reflexivity. Qed.

(** [str] of a UUID parses back to it. *)
Example print_then_parse :
  map (fun u => UUID_of_str (str_of_UUID u)) [model_a; version_a1; 0%N]
  = [Some model_a; Some version_a1; Some 0%N].
Proof. reflexivity. Qed.

(** With no scope set, the four classes that guard their clauses return
    the query they were given. *)
Example unscoped_filters_return_the_query :
  map (query_of (apply_filter select table))
    [OfUserScoped user_scoped; OfWorkspaceScoped workspace_scoped;
     OfShareable shareable; OfModelScoped model_scoped]
  = [Some select; Some select; Some select; Some select].
Proof. reflexivity. Qed.

(** ** The further properties on the concrete setting *)

Lemma scope_by_names_then_apply_filter_witness :
  exists (q' : Select) (w' : World ModelVersionScopedFilter.t),
    (_ <- ModelVersionScopedFilter.set_scope_model (Str "my-model") ;;
     _ <- ModelVersionScopedFilter.set_scope_model_version (Str "v1") ;;
     ModelVersionScopedFilter.apply_filter select table)
      (fresh model_version_scoped) = (Returned q', w') /\
    lookups w' = [get_model_call (Str "my-model");
                  get_model_version_call (Some model_a) (Str "v1")] /\
    included (row user_1 false None) q' = true.
Proof.
  destruct (scope_by_names_then_apply_filter
              (uuid_lib := py_uuid) (base_filter := column_filters)
              (client := directory) (Str "my-model") (Str "v1")
              model_a version_a1 (fresh model_version_scoped) select table
              eq_refl eq_refl eq_refl eq_refl)
    as [q' [w' [Hrun [Hcalls _]]]].
  exists q', w'. split; [exact Hrun|]. split; [exact Hcalls|].
  vm_compute in Hrun. injection Hrun as <- _. reflexivity.
Defined.

Lemma failed_model_lookup_witness :
  (_ <- ModelVersionScopedFilter.set_scope_model (Str "twin") ;;
   _ <- ModelVersionScopedFilter.set_scope_model_version (Str "v1") ;;
   ModelVersionScopedFilter.apply_filter select table)
    (fresh model_version_scoped)
  = (Raised Ambiguous,
     {| self := model_version_scoped;
        lookups := [get_model_call (Str "twin")] |}).
Proof.
  exact (failed_model_lookup_ends_the_sequence
           (uuid_lib := py_uuid) (base_filter := column_filters)
           (client := directory) (Str "twin") (Str "v1")
           Ambiguous (fresh model_version_scoped) select table
           eq_refl eq_refl).
Defined.

Lemma last_model_scope_wins_witness :
  fst ((_ <- ModelScopedFilter.set_scope_model (Str "my-model") ;;
        _ <- ModelScopedFilter.set_scope_model (Str some_uuid) ;;
        ModelScopedFilter.apply_filter select table) (fresh model_scoped))
  = fst ((_ <- ModelScopedFilter.set_scope_model (Str some_uuid) ;;
          ModelScopedFilter.apply_filter select table) (fresh model_scoped)).
Proof.
  exact (last_model_scope_wins
           (uuid_lib := py_uuid) (base_filter := column_filters)
           (client := directory) (Str "my-model") (Str some_uuid)
           (fresh model_scoped) select table eq_refl).
Defined.

Lemma containers_read_back_the_run_id_witness :
  ClearMLOrchestrator.ENV_ZENML_LOCAL_STORES_PATH
    <> ClearMLOrchestrator.ENV_ZENML_DOCKER_ORCHESTRATOR_RUN_ID /\
  Forall
    (fun kw => ClearMLOrchestrator.get_orchestrator_run_id
                 (ClearMLOrchestrator.environment kw) = Returned some_uuid)
    (ClearMLOrchestrator.containers
       (snd (ClearMLOrchestrator.prepare_or_run_pipeline deployment tt [])))
  /\
  ClearMLOrchestrator.fetched
    (snd (ClearMLOrchestrator.prepare_or_run_pipeline deployment tt []))
  = [model_a].
Proof.
  assert (Hne : ClearMLOrchestrator.ENV_ZENML_LOCAL_STORES_PATH
                <> ClearMLOrchestrator.ENV_ZENML_DOCKER_ORCHESTRATOR_RUN_ID).
  { simpl. discriminate. }
  split; [exact Hne|].
  destruct (containers_read_back_the_run_id
              (uuid_lib := py_uuid) deployment tt Hne) as [Henv [_ Hrun]].
  split.
  - apply Forall_forall. intros kw Hin.
    exact (proj1 (proj2 (Henv kw Hin))).
  - exact (Hrun eq_refl).
Defined.

Lemma schedule_only_adds_a_warning_witness :
  exists warning : string,
    ClearMLOrchestrator.prepare_or_run_pipeline deployment tt [] =
    ClearMLOrchestrator.prepare_or_run_pipeline
      {| ClearMLOrchestrator.id := model_b;
         ClearMLOrchestrator.schedule := None;
         ClearMLOrchestrator.step_configurations :=
           ClearMLOrchestrator.step_configurations deployment |} tt
      [ClearMLOrchestrator.logger_warning warning].
Proof.
  exact (schedule_only_adds_a_warning deployment tt []
           (fun _ => eq_refl)).
Defined.

Lemma keyword_clash_witness :
  exists e : ClearMLOrchestrator.Exception,
    fst (ClearMLOrchestrator.prepare_or_run_pipeline
           clashing_deployment tt []) = Raised e.
Proof.
  apply (keyword_clash_fails_the_pipeline clashing_deployment tt
           ("trainer", ("trainer", false, [("environment", AnyStr "A=1")]))).
  - right. left. reflexivity.
  - reflexivity.
Defined.

(** The run of the three steps: each container is started after the log
    of the one before has been written, and the run is looked up last. *)
Example three_steps_run_in_order :
  map ClearMLOrchestrator.image
    (ClearMLOrchestrator.containers
       (snd (ClearMLOrchestrator.prepare_or_run_pipeline deployment tt [])))
  = ["zenml:loader"; "zenml:trainer"; "zenml:evaluator"] /\
  fst (ClearMLOrchestrator.prepare_or_run_pipeline deployment tt [])
  = Returned tt.
Proof. split; reflexivity. Qed.

(** The clash is a [TypeError] at the second step: the first step has run,
    no container is started for the second. *)
Example clash_is_a_type_error :
  ClearMLOrchestrator.prepare_or_run_pipeline clashing_deployment tt []
  = (Raised ClearMLOrchestrator.TypeError,
     [ClearMLOrchestrator.logger_info "Running step `loader` in Docker:";
      ClearMLOrchestrator.container_started
        {| ClearMLOrchestrator.image := "zenml:loader";
           ClearMLOrchestrator.entrypoint :=
             ["python"; "-m"; "zenml.entrypoints.entrypoint"];
           ClearMLOrchestrator.command := ["--step_name"; "loader"];
           ClearMLOrchestrator.user := Some 1000;
           ClearMLOrchestrator.volumes :=
             [("/home/zenml/local_stores",
               [("bind", "/home/zenml/local_stores"); ("mode", "rw")])];
           ClearMLOrchestrator.environment :=
             [("ZENML_DOCKER_ORCHESTRATOR_RUN_ID", some_uuid);
              ("ZENML_LOCAL_STORES_PATH", "/home/zenml/local_stores")];
           ClearMLOrchestrator.stream := true;
           ClearMLOrchestrator.extra_hosts :=
             [("host.docker.internal", "host-gateway")];
           ClearMLOrchestrator.extra := [] |};
      ClearMLOrchestrator.logger_info "step finished";
      ClearMLOrchestrator.logger_info "Running step `trainer` in Docker:"]).
Proof. reflexivity. Qed.

(** The [BaseFilter.apply_filter] of the concrete setting leaves out the
    excluded fields. *)
Lemma generic_filters_skip_excluded (excl : list string)
    (fields : Dict (option UUID)) (b : list ColumnElement) (q0 : Select)
    (cls0 : OnTableClass.TableClass) :
  OnTableClass.BaseFilter_apply_filter_on excl fields b q0 cls0 =
  OnTableClass.BaseFilter_apply_filter_on excl
    (filter (fun kv => negb (existsb (String.eqb (fst kv)) excl)) fields)
    b q0 cls0.
Proof.
  simpl. do 3 f_equal.
  induction fields as [|[k v] fields IH]; simpl; [reflexivity|].
  destruct (existsb (String.eqb k) excl) eqn:Hk; simpl.
  - exact IH.
  - rewrite Hk. now rewrite IH.
Qed.

Lemma C9_witness_generic_filters :
  OnTableClass.apply_filter
    (OfShareable
       {| ShareableFilter.super :=
            {| WorkspaceScopedFilter.base := [];
               WorkspaceScopedFilter.scope_workspace := Some workspace_1 |};
          ShareableFilter.scope_user := Some user_1 |})
    select scoped_schema
  = Returned
      {| _from := table;
         _where_criteria :=
           [or_ [eq_ (getattr table "workspace_id") (Some workspace_1);
                 is_ (getattr table "workspace_id") PyNone];
            or_ [eq_ (getattr table "user_id") (Some user_1);
                 is_ (getattr table "is_shared") PyTrue]] |}.
Proof.
  rewrite (proj2 (proj2 (C9_scope_fields_are_excluded
                           (raising := generic_filters) _ _ _
                           generic_filters_skip_excluded))).
  reflexivity.
Defined.

(** Were [scope_user] not excluded, this generic processing would turn it
    into a column filter of its own. *)
Example unlisted_field_becomes_a_column_filter :
  generated_filters
    ["sort_by"; "page"; "size"; "logical_operator"]
    [("scope_user", Some user_1)] table
  = [eq_ (getattr table "scope_user") (Some user_1)] /\
  generated_filters
    (UserScopedFilter.FILTER_EXCLUDE_FIELDS (base_filter := column_filters))
    [("scope_user", Some user_1)] table = [].
Proof. split; reflexivity. Qed.
